(** * Fund dashboard: the NAV estimator, the feeder-fund weight, the
      instrument classifier, the trading-time gate and the watchlist store

    A shallow embedding of the computational parts of the dashboard:

    - the [FundDetail] component: [isTradingTime], the estimation [useMemo]
      and the condition under which the estimated-NAV bar is rendered;
    - [src/api/jsonp.ts], the part imported as [api/fund]: [getStockMarket],
      the query of [getStockQuotes] and the ETF-feeder block of
      [getFundDetail], with the records of [fund.types];
    - [src/store/fund.store.ts]: the actions of the zustand store;
    - further parts of the same files: the response of [getStockQuotes],
      [getStockJumpUrl], the body of [getFundEstimate], the read loop of
      the two AI streams and the trading phase of the trend prompt, the
      change cells of the detail panel and of the list, and the handlers
      of the dialog that adds a fund.

    JavaScript numbers are IEEE 754 binary64 values.  They are modelled by
    [spec_float] with the operations of [SpecFloat] at precision 53 and
    maximal exponent 1024 (round to nearest, ties to even), so every
    arithmetic step below rounds exactly where the source rounds.

    JavaScript strings are sequences of UTF-16 code units.  They are modelled
    by [string], one [ascii] per code unit, which covers the strings whose
    code units are below 256 (instrument codes, decimal numerals).  Display
    names, which are only appended to and searched, are carried as the bytes
    of their UTF-8 encoding. *)

From Stdlib Require Import ZArith List String Ascii Bool Lia.
From Stdlib Require Import Floats.SpecFloat.
From Stdlib Require Import Numbers.DecimalString.
From stdpp Require Import gmap strings list.
Import ListNotations.

(* ===================================================================== *)
(** ** JavaScript numbers *)
(* ===================================================================== *)

Module JsNumber.
Local Open Scope Z_scope.

Definition number : Type := spec_float.

Definition prec : Z := 53.
Definition emax : Z := 1024.

Definition add : number -> number -> number := SFadd prec emax.
Definition sub : number -> number -> number := SFsub prec emax.
Definition mul : number -> number -> number := SFmul prec emax.
Definition div : number -> number -> number := SFdiv prec emax.

(** [x === y], [x < y], [x <= y] and [x > y] on numbers: every comparison
    with NaN is false, and the two zeros are equal. *)
Definition eqb : number -> number -> bool := SFeqb.
Definition ltb : number -> number -> bool := SFltb.
Definition leb : number -> number -> bool := SFleb.
Definition gtb (x y : number) : bool := SFltb y x.

Definition NaN : number := S754_nan.
Definition isNaN (x : number) : bool :=
  match x with S754_nan => true | _ => false end.

(** The number of an integer literal. *)
Definition ofZ (z : Z) : number := binary_normalize prec emax z 0 false.

Definition zero : number := S754_zero false.
Definition one : number := ofZ 1.
Definition hundred : number := ofZ 100.

(** The number nearest to the rational [n / d], with the given sign:
    [SFdiv] divides the two integers with a remainder and rounds the
    quotient once, whatever the length of the mantissas. *)
Definition ofRatio (neg : bool) (n d : positive) : number :=
  div (S754_finite neg n 0) (S754_finite false d 0).

(** The number value of the decimal [m * 10 ^ e10] ([m >= 0]). *)
Definition ofDecimal (neg : bool) (m e10 : Z) : number :=
  match m with
  | Zpos p =>
      if 0 <=? e10
      then ofRatio neg (p * Z.to_pos (10 ^ e10)) 1
      else ofRatio neg p (Z.to_pos (10 ^ (- e10)))
  | _ => S754_zero neg
  end.

(** *** [parseFloat] *)

Definition isDigit (c : ascii) : bool :=
  let n := Z.of_N (N_of_ascii c) in (48 <=? n) && (n <=? 57).

Definition digitValue (c : ascii) : Z := Z.of_N (N_of_ascii c) - 48.

(** White space and line terminators among the code units below 256:
    TAB, LF, VT, FF, CR, SP and NBSP. *)
Definition isStrWhiteSpaceChar (c : ascii) : bool :=
  let n := Z.of_N (N_of_ascii c) in
  ((9 <=? n) && (n <=? 13)) || (n =? 32) || (n =? 160).

Fixpoint skipWhiteSpace (s : string) : string :=
  match s with
  | String c r => if isStrWhiteSpaceChar c then skipWhiteSpace r else s
  | EmptyString => s
  end.

(** The longest run of decimal digits at the head of [s]: its value after
    the digits [acc] already read, the number of digits read, and the rest. *)
Fixpoint scanDigits (s : string) (acc : Z) (n : Z) : Z * Z * string :=
  match s with
  | String c r =>
      if isDigit c then scanDigits r (10 * acc + digitValue c) (n + 1)
      else (acc, n, s)
  | EmptyString => (acc, n, s)
  end.

Definition scanSign (s : string) : bool * string :=
  match s with
  | String "+"%char r => (false, r)
  | String "-"%char r => (true, r)
  | _ => (false, s)
  end.

(** The exponent part [e] or [E], an optional sign and at least one digit;
    anything else is not part of the numeral. *)
Definition scanExponent (s : string) : Z :=
  match s with
  | String c r =>
      if (Ascii.eqb c "e" || Ascii.eqb c "E")%bool then
        let '(eneg, r1) := scanSign r in
        let '(ev, en, _) := scanDigits r1 0 0 in
        if en =? 0 then 0 else if eneg then - ev else ev
      else 0
  | EmptyString => 0
  end.

(** [parseFloat s]: leading white space is dropped, then the longest prefix
    that is a decimal literal ([Infinity], or digits with an optional
    fraction and exponent, optionally signed) is converted; NaN when there
    is no such prefix. *)
Definition parseFloat (s : string) : number :=
  let '(neg, u) := scanSign (skipWhiteSpace s) in
  if String.prefix "Infinity" u then S754_infinity neg
  else
    let '(iv, ni, r1) := scanDigits u 0 0 in
    let '(mv, nf, r2) :=
      match r1 with
      | String "."%char r =>
          let '(v, n, r') := scanDigits r iv 0 in
          if (ni =? 0) && (n =? 0) then (iv, 0, r1) else (v, n, r')
      | _ => (iv, 0, r1)
      end in
    if (ni =? 0) && (nf =? 0) then NaN
    else ofDecimal neg mv (scanExponent r2 - nf).

(** *** [Number.prototype.toFixed(2)] *)

(** The integer [n] for which [n / 100 - x] is closest to zero, the larger
    one on a tie, for [x = m * 2 ^ e]. *)
Definition roundHundredths (m : positive) (e : Z) : Z :=
  if 0 <=? e then Zpos m * 2 ^ e * 100
  else (200 * Zpos m + 2 ^ (- e)) / 2 ^ (1 - e).

Definition decimalDigits (n : Z) : string :=
  NilZero.string_of_uint (N.to_uint (Z.to_N n)).

(** The digits of [n] with a point before the last two, padded with zeros
    to at least three digits. *)
Definition fixed2 (n : Z) : string :=
  let m := decimalDigits n in
  let m := if (String.length m <=? 2)%nat
           then String.append (string_of_list_ascii
                  (repeat "0"%char (3 - String.length m))) m
           else m in
  let k := String.length m in
  String.append (substring 0 (k - 2) m)
    (String "."%char (substring (k - 2) 2 m)).

Section ToFixed.
(** [Number::toString], which [toFixed] calls on NaN, the infinities and
    numbers from [10 ^ 21] on; a built-in of the language. *)
Variable NumberToString : number -> string.

Definition toFixed2 (x : number) : string :=
  match x with
  | S754_finite s m e =>
      let sign := if s then "-" else "" in
      if (if 0 <=? e then 10 ^ 21 <=? Zpos m * 2 ^ e
          else 10 ^ 21 * 2 ^ (- e) <=? Zpos m)
      then String.append sign (NumberToString (S754_finite false m e))
      else String.append sign (fixed2 (roundHundredths m e))
  | S754_zero _ => "0.00"
  | _ => NumberToString x
  end.
End ToFixed.

(** Arithmetic is evaluated on closed numbers only. *)
Global Arguments add : simpl never.
Global Arguments sub : simpl never.
Global Arguments mul : simpl never.
Global Arguments div : simpl never.
Global Arguments ofZ : simpl never.
Global Arguments parseFloat : simpl never.
Global Arguments toFixed2 : simpl never.
End JsNumber.

(* ===================================================================== *)
(** ** The records of [fund.types], with the fields the dashboard fills *)
(* ===================================================================== *)

Module Types.
(** [MyFund]: a watchlist entry.  [addedAt] is the millisecond timestamp of
    [Date.now()], an integer. *)
Record MyFund := {
  code : string;
  name : string;
  type : option string;
  manager : option string;
  addedAt : Z;
  shares : option JsNumber.number;
  cost : option JsNumber.number
}.

(** [Omit<MyFund, 'addedAt'>], the argument of [addFund]. *)
Record NewFund := {
  newCode : string;
  newName : string;
  newType : option string;
  newManager : option string;
  newShares : option JsNumber.number;
  newCost : option JsNumber.number
}.

Record FundEstimate := {
  estCode : string;
  estName : string;
  gsz : string;
  gszzl : string;
  gztime : string;
  dwjz : string
}.

Record HoldingStock := {
  stockCode : string;
  stockName : string;
  ratio : string
}.

Record BondHolding := {
  bondCode : string;
  bondName : string;
  bondRatio : string
}.

Record FundDetail := {
  detailCode : string;
  detailName : string;
  detailType : string;
  detailManager : string;
  updateDate : string;
  holdings : list HoldingStock;
  bondHoldings : list BondHolding
}.

(** [StockQuote] of [api/fund.ts].  [changePct] is read from the quote line
    and may be tested against [undefined]: [None] stands for it. *)
Record StockQuote := {
  quoteCode : string;
  price : string;
  changeRaw : string;
  changePct : option string
}.

Inductive StockMarket := SH | SZ | HK | unknown.
End Types.

(** [a || b] on strings: the empty string is the only falsy one. *)
Definition orElse (a b : string) : string :=
  if String.eqb a "" then b else a.

Definition truthy (s : string) : bool := negb (String.eqb s "").

(* ===================================================================== *)
(** ** [getStockMarket] and the query of [getStockQuotes] *)
(* ===================================================================== *)

Module Market.
Import Types.

Definition startsWith (s p : string) : bool := String.prefix p s.

Definition getStockMarket (code : string) : StockMarket :=
  if negb (truthy code) then unknown
  else if Nat.eqb (String.length code) 5 then HK
  else if startsWith code "6" || startsWith code "5" then SH
  else if startsWith code "0" || startsWith code "3" || startsWith code "15"
          || startsWith code "16" || startsWith code "2"
          || startsWith code "8" || startsWith code "4" then SZ
  else unknown.

(** The element [getStockQuotes] maps a code to: the code with its exchange
    prefix, or the empty string. *)
Definition quoteSymbol (c : string) : string :=
  match getStockMarket c with
  | SH => String.append "sh" c
  | SZ => String.append "sz" c
  | HK => String.append "hk" c
  | unknown => ""
  end.

(** [codes.map(...).filter(Boolean)] *)
Definition querySymbols (codes : list string) : list string :=
  List.filter truthy (List.map quoteSymbol codes).

(** [....join(',')] *)
Definition query (codes : list string) : string :=
  String.concat "," (querySymbols codes).

(** The URL [getStockQuotes] fetches, or [None] when it returns the empty
    record without a request. *)
Definition quoteRequest (codes : list string) : option string :=
  match codes with
  | [] => None
  | _ =>
      let q := query codes in
      if negb (truthy q) then None
      else Some (String.append "https://qt.gtimg.cn/q=" q)
  end.

Definition known (c : string) : bool :=
  match getStockMarket c with unknown => false | _ => true end.
End Market.

(* ===================================================================== *)
(** ** [isTradingTime] *)
(* ===================================================================== *)

Module Trading.
Local Open Scope Z_scope.

(** What [isTradingTime] reads of [new Date()]: [getDay()] (0 is Sunday,
    6 is Saturday), [getHours()] and [getMinutes()], all small integers. *)
Record LocalTime := {
  getDay : Z;
  getHours : Z;
  getMinutes : Z
}.

Definition wellFormed (now : LocalTime) : Prop :=
  0 <= getDay now <= 6 /\ 0 <= getHours now <= 23 /\ 0 <= getMinutes now <= 59.

Definition isTradingTime (now : LocalTime) : bool :=
  let day := getDay now in
  if (day =? 0) || (day =? 6) then false
  else
    let h := getHours now in
    let m := getMinutes now in
    let timeNum := h * 100 + m in
    if (900 <=? timeNum) && (timeNum <=? 1200) then true
    else if (1300 <=? timeNum) && (timeNum <? 1600) then true
    else false.

(** Minutes since local midnight. *)
Definition minuteOfDay (now : LocalTime) : Z := 60 * getHours now + getMinutes now.
End Trading.

(* ===================================================================== *)
(** ** The estimation [useMemo] of [FundDetail] *)
(* ===================================================================== *)

Module Estimator.
Import Types JsNumber.

(** The three variables the [forEach] loop updates. *)
Record Acc := {
  totalWeightedChange : number;
  totalRatio : number;
  hasValidData : bool
}.

Definition init : Acc :=
  {| totalWeightedChange := zero; totalRatio := zero; hasValidData := false |}.

(** One turn of the loop.  [quotes[stock.stockCode]] is a lookup in the
    record of quotes; a name found only on [Object.prototype] yields a value
    whose [changePct] is [undefined], which the loop skips like a missing
    entry, so the lookup in the map of own entries decides alike. *)
Definition visit (quotes : gmap string StockQuote) (acc : Acc) (stock : HoldingStock) : Acc :=
  match quotes !! stockCode stock with
  | Some quote =>
      match changePct quote with
      | Some pct =>
          if negb (String.eqb pct "--") then
            let ratio := div (parseFloat (ratio stock)) hundred in
            let change := parseFloat pct in
            if negb (isNaN ratio) && negb (isNaN change) then
              {| totalWeightedChange := add (totalWeightedChange acc) (mul ratio change);
                 totalRatio := add (totalRatio acc) ratio;
                 hasValidData := true |}
            else acc
          else acc
      | None => acc
      end
  | None => acc
  end.

(** The value of the memo: both figures are [null] together. *)
Record Estimation := {
  estimatedChangePct : option number;
  realTimeEstimatedNav : option number;
  totalKnownRatio : number
}.

Definition unavailable : Estimation :=
  {| estimatedChangePct := None; realTimeEstimatedNav := None; totalKnownRatio := zero |}.

Definition estimate (detail : option FundDetail) (quotes : gmap string StockQuote)
    (est : option FundEstimate) : Estimation :=
  match detail, est with
  | Some d, Some e =>
      if Nat.eqb (List.length (holdings d)) 0 || Nat.eqb (size quotes) 0 then unavailable
      else
        let acc := fold_left (visit quotes) (holdings d) init in
        if negb (hasValidData acc) || eqb (totalRatio acc) zero then unavailable
        else
          let extrapolatedChangePct := div (totalWeightedChange acc) (totalRatio acc) in
          let baseNav := parseFloat (orElse (gsz e) "0") in
          let estimatedNav := mul baseNav (add one (div extrapolatedChangePct hundred)) in
          {| estimatedChangePct := Some extrapolatedChangePct;
             realTimeEstimatedNav := Some estimatedNav;
             totalKnownRatio := mul (totalRatio acc) hundred |}
  | _, _ => unavailable
  end.

(** The condition under which the estimated-NAV bar is rendered;
    [estChange] is not [null] exactly when [estimatedChangePct] is not. *)
Definition showsEstimatedBar (r : Estimation) (now : Trading.LocalTime) : bool :=
  match realTimeEstimatedNav r, estimatedChangePct r with
  | Some _, Some _ => Trading.isTradingTime now
  | _, _ => false
  end.

(** A holding the loop counts: it has a quote whose change percentage is
    present, is not the marker of a missing value, and parses, and its own
    ratio parses. *)
Definition contributes (quotes : gmap string StockQuote) (stock : HoldingStock) : bool :=
  match quotes !! stockCode stock with
  | Some quote =>
      match changePct quote with
      | Some pct =>
          negb (String.eqb pct "--")
          && negb (isNaN (div (parseFloat (ratio stock)) hundred))
          && negb (isNaN (parseFloat pct))
      | None => false
      end
  | None => false
  end.

(** The weight [ratio / 100] and the change of a holding that has a quote
    ([NaN] when it has none). *)
Definition weightOf (stock : HoldingStock) : number :=
  div (parseFloat (ratio stock)) hundred.

Definition changeOf (quotes : gmap string StockQuote) (stock : HoldingStock) : number :=
  match quotes !! stockCode stock with
  | Some quote =>
      match changePct quote with
      | Some pct => parseFloat pct
      | None => NaN
      end
  | None => NaN
  end.

(** Sums as the loop forms them: from zero, left to right, rounding at
    every addition. *)
Definition sum (xs : list number) : number := fold_left add xs zero.

Definition weightedChangeSum (quotes : gmap string StockQuote) (hs : list HoldingStock) : number :=
  sum (List.map (fun h => mul (weightOf h) (changeOf quotes h))
         (List.filter (contributes quotes) hs)).

Definition weightSum (quotes : gmap string StockQuote) (hs : list HoldingStock) : number :=
  sum (List.map weightOf (List.filter (contributes quotes) hs)).

(** The last confirmed NAV the estimate starts from. *)
Definition baseNavOf (e : FundEstimate) : number := parseFloat (orElse (gsz e) "0").

(** The holdings the first test of the memo looks at: none when there is
    no detail. *)
Definition holdingsOf (detail : option FundDetail) : list HoldingStock :=
  match detail with
  | Some d => holdings d
  | None => []
  end.

(** A holding whose instrument has a quote with a numeric change. *)
Definition hasNumericQuote (quotes : gmap string StockQuote) (stock : HoldingStock) : bool :=
  match quotes !! stockCode stock with
  | Some quote =>
      match changePct quote with
      | Some pct => negb (String.eqb pct "--") && negb (isNaN (parseFloat pct))
      | None => false
      end
  | None => false
  end.

(** The same detail with other holdings. *)
Definition withHoldings (d : FundDetail) (hs : list HoldingStock) : FundDetail :=
  {| detailCode := detailCode d; detailName := detailName d;
     detailType := detailType d; detailManager := detailManager d;
     updateDate := updateDate d; holdings := hs;
     bondHoldings := bondHoldings d |}.
End Estimator.

(* ===================================================================== *)
(** ** The ETF-feeder block of [getFundDetail] *)
(* ===================================================================== *)

Module Feeder.
Import Types JsNumber.

(** A value of the feed where the source tests truthiness before parsing:
    [null] or [undefined], a number, or a string. *)
Inductive jsval :=
| JNull
| JNum (x : number)
| JStr (s : string).

(** [parseFloat(v || dflt)].  A truthy number is first written out by
    [Number::toString], whose result is specified to read back as the same
    number, so it is returned as it is. *)
Definition parseFloatOr (v : jsval) (dflt : string) : number :=
  match v with
  | JNull => parseFloat dflt
  | JNum (S754_zero _) | JNum S754_nan => parseFloat dflt
  | JNum x => x
  | JStr s => parseFloat (orElse s dflt)
  end.

Definition truthyField (o : option string) : bool :=
  match o with Some s => truthy s | None => false end.

(** A row of the asset-allocation response, of which only [JJ] is read. *)
Record AllocationRow := { JJ : option string }.

(** A series of [window.Data_assetAllocation]. *)
Record Series := {
  seriesName : option string;
  seriesData : option (list jsval)
}.

(** [s.includes(p)] *)
Fixpoint includes (s p : string) : bool :=
  String.prefix p s
  || match s with
     | String _ r => includes r p
     | EmptyString => false
     end.

(** What the block reads besides the holdings parsed so far:
    - [ETFCODE], [ETFSHORTNAME]: fields of [data.Datas];
    - [allocation]: [allocationRes.data.Datas] when the second request
      succeeded and delivered an array;
    - [assetAllocation]: [window.Data_assetAllocation.series] when the
      object is there with arrays [categories] and [series]. *)
Record Feed := {
  ETFCODE : option string;
  ETFSHORTNAME : option string;
  allocation : option (list AllocationRow);
  assetAllocation : option (list Series)
}.

Definition isFeeder (f : Feed) : bool :=
  truthyField (ETFCODE f) && truthyField (ETFSHORTNAME f).

(** [currentTotal]: the ratios of the stock holdings, then of the bond
    holdings, added up from zero. *)
Definition currentTotal (stocks : list HoldingStock) (bonds : list BondHolding) : number :=
  fold_left (fun t b => add t (parseFloat (orElse (bondRatio b) "0"))) bonds
    (fold_left (fun t s => add t (parseFloat (orElse (ratio s) "0"))) stocks zero).

(** [preciseEtfRatio] after the allocation response was read. *)
Definition preciseFromAllocation (f : Feed) : number :=
  match allocation f with
  | Some (latestAllocation :: _) =>
      match JJ latestAllocation with
      | Some jj =>
          if truthy jj && negb (String.eqb jj "--") then parseFloat jj else zero
      | None => zero
      end
  | _ => zero
  end.

Definition isCashSeries (s : Series) : bool :=
  match seriesName s with
  | Some n => includes n "现金"
  | None => false
  end.

(** The cash weight of the latest point of the cash series, when there is
    such a series with a non-empty array of points. *)
Definition latestCashRatio (f : Feed) : option number :=
  match assetAllocation f with
  | Some series =>
      match List.find isCashSeries series with
      | Some cashSeries =>
          match seriesData cashSeries with
          | Some data =>
              match List.last (List.map Some data) None with
              | Some v => Some (parseFloatOr v "5")
              | None => None
              end
          | None => None
          end
      | None => None
      end
  | None => None
  end.

(** [estimatedEtfRatio] after the cash series was read. *)
Definition estimateFromCash (f : Feed) (stocks : list HoldingStock)
    (bonds : list BondHolding) : number :=
  match latestCashRatio f with
  | Some cash => sub (sub hundred cash) (currentTotal stocks bonds)
  | None => zero
  end.

Definition outOfRange (x : number) : bool := leb x zero || gtb x hundred.

(** [preciseEtfRatio] as it is tested against zero before the push. *)
Definition etfRatio (f : Feed) (stocks : list HoldingStock)
    (bonds : list BondHolding) : number :=
  let preciseEtfRatio := preciseFromAllocation f in
  let preciseEtfRatio :=
    if outOfRange preciseEtfRatio then
      let estimatedEtfRatio := estimateFromCash f stocks bonds in
      if outOfRange estimatedEtfRatio
      then sub (ofZ 95) (currentTotal stocks bonds)
      else estimatedEtfRatio
    else preciseEtfRatio in
  if ltb preciseEtfRatio zero then zero else preciseEtfRatio.

Section Push.
Variable NumberToString : number -> string.

Definition pseudoHolding (f : Feed) (w : number) : HoldingStock :=
  {| stockCode := default "" (ETFCODE f);
     stockName := String.append (default "" (ETFSHORTNAME f)) " (主要联接标的)";
     ratio := toFixed2 NumberToString w |}.

(** [stockHoldings] after the block. *)
Definition withEtfFeeder (f : Feed) (stocks : list HoldingStock)
    (bonds : list BondHolding) : list HoldingStock :=
  if isFeeder f then
    let w := etfRatio f stocks bonds in
    if gtb w zero then stocks ++ [pseudoHolding f w] else stocks
  else stocks.
End Push.
End Feeder.

(* ===================================================================== *)
(** ** The watchlist store *)
(* ===================================================================== *)

Module Store.
Import Types.

Record FundStore := {
  funds : list MyFund;
  selectedCode : option string;
  estimates : gmap string FundEstimate;
  details : gmap string FundDetail;
  loadingEstimate : gmap string bool;
  loadingDetail : gmap string bool
}.

(** The store together with the writes [saveToStorage] made under
    [STORAGE_KEY], the latest first. *)
Record World := {
  state : FundStore;
  saved : list (list MyFund)
}.

Definition hasCode (c : string) (f : MyFund) : bool := String.eqb (code f) c.

Definition withAddedAt (fund : NewFund) (now : Z) : MyFund :=
  {| code := newCode fund; name := newName fund; type := newType fund;
     manager := newManager fund; addedAt := now;
     shares := newShares fund; cost := newCost fund |}.

(** [addFund(fund)] at the time [now] of [Date.now()]. *)
Definition addFund (fund : NewFund) (now : Z) (w : World) : World :=
  let st := state w in
  match List.find (hasCode (newCode fund)) (funds st) with
  | Some _ => w
  | None =>
      let newFund := withAddedAt fund now in
      let newFunds := funds st ++ [newFund] in
      {| state := {| funds := newFunds;
                     selectedCode := selectedCode st;
                     estimates := estimates st;
                     details := details st;
                     loadingEstimate := loadingEstimate st;
                     loadingDetail := loadingDetail st |};
         saved := newFunds :: saved w |}
  end.

Definition removeFund (c : string) (w : World) : World :=
  let st := state w in
  let newFunds := List.filter (fun f => negb (hasCode c f)) (funds st) in
  {| state := {| funds := newFunds;
                 selectedCode :=
                   match selectedCode st with
                   | Some s => if String.eqb s c then None else Some s
                   | None => None
                   end;
                 estimates := estimates st;
                 details := details st;
                 loadingEstimate := loadingEstimate st;
                 loadingDetail := loadingDetail st |};
     saved := newFunds :: saved w |}.

Definition selectFund (c : string) (w : World) : World :=
  let st := state w in
  {| state := {| funds := funds st;
                 selectedCode := Some c;
                 estimates := estimates st;
                 details := details st;
                 loadingEstimate := loadingEstimate st;
                 loadingDetail := loadingDetail st |};
     saved := saved w |}.

Definition setEstimate (c : string) (e : FundEstimate) (w : World) : World :=
  let st := state w in
  {| state := {| funds := funds st;
                 selectedCode := selectedCode st;
                 estimates := <[c := e]> (estimates st);
                 details := details st;
                 loadingEstimate := loadingEstimate st;
                 loadingDetail := loadingDetail st |};
     saved := saved w |}.

Definition setDetail (c : string) (d : FundDetail) (w : World) : World :=
  let st := state w in
  {| state := {| funds := funds st;
                 selectedCode := selectedCode st;
                 estimates := estimates st;
                 details := <[c := d]> (details st);
                 loadingEstimate := loadingEstimate st;
                 loadingDetail := loadingDetail st |};
     saved := saved w |}.

Definition setLoadingEstimate (c : string) (loading : bool) (w : World) : World :=
  let st := state w in
  {| state := {| funds := funds st;
                 selectedCode := selectedCode st;
                 estimates := estimates st;
                 details := details st;
                 loadingEstimate := <[c := loading]> (loadingEstimate st);
                 loadingDetail := loadingDetail st |};
     saved := saved w |}.

Definition setLoadingDetail (c : string) (loading : bool) (w : World) : World :=
  let st := state w in
  {| state := {| funds := funds st;
                 selectedCode := selectedCode st;
                 estimates := estimates st;
                 details := details st;
                 loadingEstimate := loadingEstimate st;
                 loadingDetail := <[c := loading]> (loadingDetail st) |};
     saved := saved w |}.

(** The actions of the store, with what each is called on. *)
Inductive Action :=
| AddFund (fund : NewFund) (now : Z)
| RemoveFund (c : string)
| SelectFund (c : string)
| SetEstimate (c : string) (e : FundEstimate)
| SetDetail (c : string) (d : FundDetail)
| SetLoadingEstimate (c : string) (loading : bool)
| SetLoadingDetail (c : string) (loading : bool).

Definition step (w : World) (a : Action) : World :=
  match a with
  | AddFund fund now => addFund fund now w
  | RemoveFund c => removeFund c w
  | SelectFund c => selectFund c w
  | SetEstimate c e => setEstimate c e w
  | SetDetail c d => setDetail c d w
  | SetLoadingEstimate c l => setLoadingEstimate c l w
  | SetLoadingDetail c l => setLoadingDetail c l w
  end.

Definition run (w : World) (actions : list Action) : World :=
  fold_left step actions w.

Definition codes (w : World) : list string := List.map code (funds (state w)).
End Store.

(* ===================================================================== *)
(** ** Concrete inputs *)
(* ===================================================================== *)

Module Examples.
Import Types JsNumber.

Definition holding (c r : string) : HoldingStock :=
  {| stockCode := c; stockName := c; ratio := r |}.

Definition quote (c pct : string) : string * StockQuote :=
  (c, {| quoteCode := c; price := "10.00"; changeRaw := "0.10"; changePct := Some pct |}).

Definition detailOf (hs : list HoldingStock) : FundDetail :=
  {| detailCode := "000001"; detailName := "fund"; detailType := "";
     detailManager := ""; updateDate := ""; holdings := hs; bondHoldings := [] |}.

Definition estimateOf (nav : string) : FundEstimate :=
  {| estCode := "000001"; estName := "fund"; gsz := nav; gszzl := "0.5";
     gztime := "2024-01-02"; dwjz := "" |}.

Definition quotesOf (l : list (string * StockQuote)) : gmap string StockQuote :=
  list_to_map l.

(** Weights 60 and 40, changes +1.0 and -2.0, last NAV 2.5. *)
Definition twoHoldings : list HoldingStock :=
  [holding "600519" "60"; holding "000001" "40"].
Definition twoQuotes : gmap string StockQuote :=
  quotesOf [quote "600519" "1.0"; quote "000001" "-2.0"].

(** One holding of weight zero with a quote. *)
Definition zeroWeight : list HoldingStock := [holding "600519" "0"].
Definition oneQuote : gmap string StockQuote := quotesOf [quote "600519" "3"].

(** One holding of weight 10 whose instrument rose by 3 percent. *)
Definition tenPercent : list HoldingStock := [holding "600519" "10"].

(** One holding of weight 8.42, or of weight 100, whose instrument rose by
    1.23 percent. *)
Definition oddWeight : list HoldingStock := [holding "600519" "8.42"].
Definition fullWeight : list HoldingStock := [holding "600519" "100"].
Definition oddQuote : gmap string StockQuote := quotesOf [quote "600519" "1.23"].

(** A suspended instrument beside a quoted one. *)
Definition withSuspended : list HoldingStock :=
  [holding "600519" "60"; holding "300750" "25"; holding "000001" "40"].
Definition suspendedQuotes : gmap string StockQuote :=
  quotesOf [quote "600519" "1.0"; quote "300750" "--"; quote "000001" "-2.0"].

(** Known holdings whose ratios add up to 30. *)
Definition thirty : list HoldingStock := [holding "600519" "10"; holding "000001" "20"].


(** A feeder fund whose allocation response reports the ratio [jj]. *)
Definition feederPrecise (jj : string) : Feeder.Feed :=
  {| Feeder.ETFCODE := Some "510300"; Feeder.ETFSHORTNAME := Some "ETF300";
     Feeder.allocation := Some [{| Feeder.JJ := Some jj |}];
     Feeder.assetAllocation := None |}.

(** A feeder fund with a cash series and no ratio in the allocation
    response. *)
Definition feederCash (points : list Feeder.jsval) : Feeder.Feed :=
  {| Feeder.ETFCODE := Some "510300"; Feeder.ETFSHORTNAME := Some "ETF300";
     Feeder.allocation := Some [{| Feeder.JJ := Some "--" |}];
     Feeder.assetAllocation :=
       Some [{| Feeder.seriesName := Some "股票占净比";
                Feeder.seriesData := Some [Feeder.JNum (parseFloat "93.65")] |};
             {| Feeder.seriesName := Some "现金占净比";
                Feeder.seriesData := Some points |}] |}.

(** A stand-in for [Number::toString]; the weights below stay under
    [10 ^ 21], where [toFixed] does not call it. *)
Definition plainToString (x : number) : string :=
  match x with
  | S754_nan => "NaN"
  | S754_infinity false => "Infinity"
  | S754_infinity true => "-Infinity"
  | _ => ""
  end.

Definition fund (c n : string) (t : Z) : MyFund :=
  {| code := c; name := n; type := None; manager := None; addedAt := t;
     shares := None; cost := None |}.

Definition newFund (c n : string) : NewFund :=
  {| newCode := c; newName := n; newType := None; newManager := None;
     newShares := None; newCost := None |}.

(** A store with two funds, the first of them selected. *)
Definition twoFunds : Store.World :=
  {| Store.state :=
       {| Store.funds := [fund "000001" "alpha" 1700000000000; fund "110022" "beta" 1700000000500];
          Store.selectedCode := Some "000001";
          Store.estimates := {[ "000001" := estimateOf "2.5" ]};
          Store.details := ∅;
          Store.loadingEstimate := {[ "110022" := true ]};
          Store.loadingDetail := ∅ |};
     Store.saved := [] |}.
End Examples.

(* ===================================================================== *)
(** ** String built-ins of the API layer *)
(* ===================================================================== *)

Module JsString.
Import JsNumber.

(** The quotation mark, code unit 34. *)
Definition dquote : ascii := Eval cbv in ascii_of_nat 34.

(** [s.trim()] removes white space and line terminators at both ends. *)
Definition trimStart (s : string) : string := skipWhiteSpace s.

Fixpoint trimEnd (s : string) : string :=
  match s with
  | EmptyString => EmptyString
  | String c r =>
      let r' := trimEnd r in
      if isStrWhiteSpaceChar c && String.eqb r' "" then EmptyString
      else String c r'
  end.

Definition trim (s : string) : string := trimEnd (trimStart s).

(** [s.split(sep)] for a separator of one code unit: the pieces between
    the separators, one more than there are separators. *)
Fixpoint split (sep : ascii) (s : string) : list string :=
  match s with
  | EmptyString => [EmptyString]
  | String c r =>
      if Ascii.eqb c sep then EmptyString :: split sep r
      else match split sep r with
           | piece :: pieces => String c piece :: pieces
           | [] => [String c EmptyString]
           end
  end.

(** [s.slice(n)] for [n] from zero on. *)
Fixpoint sliceFrom (n : nat) (s : string) : string :=
  match n, s with
  | S k, String _ r => sliceFrom k r
  | _, _ => s
  end.

(** [s.padStart(2, '0')] *)
Definition padStart2 (s : string) : string :=
  String.append (string_of_list_ascii (repeat "0"%char (2 - String.length s))) s.

(** [String(n)] for an integer [n] below [10 ^ 21] in magnitude. *)
Definition ofInteger (n : Z) : string :=
  if (n <? 0)%Z then String "-"%char (decimalDigits (- n)) else decimalDigits n.
End JsString.

(* ===================================================================== *)
(** ** The response of [getStockQuotes] *)
(* ===================================================================== *)

(** The decoded text of the response is read line by line.  The characters
    that structure it (the semicolon, [v_], the equals sign, the quotation
    mark, the tilde, the line terminators) are below 128 and occur in no
    byte of the UTF-8 encoding of another character, so names in the text
    may be carried as their bytes. *)
Module Quotes.
Import Types JsString.

(** The code units below 256 that [.] does not match: LF and CR. *)
Definition isLineTerminator (c : ascii) : bool :=
  let n := N_of_ascii c in (n =? 10)%N || (n =? 13)%N.

(** The greedy group [(.+)] and the quotation mark behind it, at the head
    of [s]: the position of the last quotation mark that is preceded by
    characters [.] matches only, at least one of them.  [pos] counts the
    characters passed and [found] is the last such position among them. *)
Fixpoint closingQuote (s : string) (pos : nat) (found : option nat) : option nat :=
  match s with
  | EmptyString => found
  | String c r =>
      if isLineTerminator c then found
      else closingQuote r (S pos)
             (if Ascii.eqb c dquote && (1 <=? pos)%nat then Some pos else found)
  end.

Definition matchBody (s : string) : option string :=
  match closingQuote s 0 None with
  | Some j => Some (substring 0 j s)
  | None => None
  end.

(** The equals sign and the quotation mark between the two groups. *)
Definition equalsQuote : string := String "="%char (String dquote EmptyString).

(** The pattern behind [v_] at the head of [s]: the lazy group [(.+?)],
    which holds [taken] already, the equals sign, and the quoted greedy
    group.  The lazy group takes one character more as long as the rest
    of the pattern does not match behind it. *)
Fixpoint lazyKey (taken : string) (s : string) : option (string * string) :=
  match s with
  | EmptyString => None
  | String c r =>
      if isLineTerminator c then None
      else
        let key := String.append taken (String c EmptyString) in
        match (if Market.startsWith r equalsQuote
               then matchBody (sliceFrom 2 r) else None) with
        | Some body => Some (key, body)
        | None => lazyKey key r
        end
  end.

Definition matchAt (s : string) : option (string * string) :=
  if Market.startsWith s "v_" then lazyKey EmptyString (sliceFrom 2 s) else None.

(** [line.match] on the pattern [v_], a lazy group [(.+?)], an equals
    sign and a greedy group [(.+)] between quotation marks: the two groups
    of the leftmost match. *)
Fixpoint matchQuote (line : string) : option (string * string) :=
  match matchAt line with
  | Some groups => Some groups
  | None =>
      match line with
      | String _ r => matchQuote r
      | EmptyString => None
      end
  end.

Definition lowerAscii (c : ascii) : ascii :=
  let n := nat_of_ascii c in
  if (65 <=? n)%nat && (n <=? 90)%nat then ascii_of_nat (n + 32) else c.

(** [codeWithPrefix.replace(/^(sh|sz|hk)/i, '')] *)
Definition stripExchangePrefix (s : string) : string :=
  match s with
  | String a (String b r) =>
      let p := String (lowerAscii a) (String (lowerAscii b) EmptyString) in
      if String.eqb p "sh" || String.eqb p "sz" || String.eqb p "hk" then r else s
  | _ => s
  end.

(** The body of [lines.forEach].  Assigning to the name [__proto__] sets
    the prototype of the record and adds no entry to it. *)
Definition readLine (quotes : gmap string StockQuote) (line : string)
  : gmap string StockQuote :=
  if String.eqb (trim line) "" then quotes
  else
    match matchQuote line with
    | Some (codeWithPrefix, body) =>
        let pureCode := stripExchangePrefix codeWithPrefix in
        let parts := split "~" body in
        if (32 <? List.length parts)%nat then
          if String.eqb pureCode "__proto__" then quotes
          else <[pureCode := {| quoteCode := pureCode;
                                price := nth 3 parts EmptyString;
                                changeRaw := nth 31 parts EmptyString;
                                changePct := nth_error parts 32 |}]> quotes
        else quotes
    | None => quotes
    end.

(** The record built from the decoded response [text]. *)
Definition parseQuotes (text : string) : gmap string StockQuote :=
  fold_left readLine (split ";" text) ∅.

Section Fetch.
(** The decoded body of the response to a URL, [None] when [fetch] or
    the decoding throws. *)
Variable fetchText : string -> option string.

Definition getStockQuotes (codes : list string) : gmap string StockQuote :=
  match Market.quoteRequest codes with
  | None => ∅
  | Some url =>
      match fetchText url with
      | Some text => parseQuotes text
      | None => ∅
      end
  end.
End Fetch.

(** A line of the response as the interface writes it: [v_], the symbol,
    and the fields joined by [~] between quotation marks. *)
Definition quoteLine (symbol : string) (fields : list string) : string :=
  String.append "v_"
    (String.append symbol
       (String.append equalsQuote
          (String.append (String.concat "~" fields) (String dquote EmptyString)))).

(** The quote [readLine] stores for the fields of a line. *)
Definition quoteFrom (c : string) (fields : list string) : StockQuote :=
  {| quoteCode := c;
     price := nth 3 fields EmptyString;
     changeRaw := nth 31 fields EmptyString;
     changePct := nth_error fields 32 |}.

(** A response: for each code and its fields the line of the symbol of
    the code, a semicolon and a line feed.  [pad] is what stands in front
    of the next line: nothing at the start, the line feed afterwards. *)
Fixpoint responseFrom (pad : string) (entries : list (string * list string)) : string :=
  match entries with
  | [] => pad
  | (c, fields) :: rest =>
      String.append pad
        (String.append (quoteLine (Market.quoteSymbol c) fields)
           (String ";"%char (responseFrom (String (ascii_of_nat 10) EmptyString) rest)))
  end.

Definition response (entries : list (string * list string)) : string :=
  responseFrom EmptyString entries.

(** The record with the quote of each entry under its code, a later entry
    replacing an earlier one of the same code. *)
Definition quotesOfEntries (entries : list (string * list string))
  : gmap string StockQuote :=
  fold_left (fun m e => <[fst e := quoteFrom (fst e) (snd e)]> m) entries ∅.

Definition codeChar (ch : ascii) : bool :=
  negb (isLineTerminator ch) && negb (Ascii.eqb ch "=") && negb (Ascii.eqb ch ";").

Definition fieldChar (ch : ascii) : bool :=
  negb (isLineTerminator ch) && negb (Ascii.eqb ch "~") && negb (Ascii.eqb ch ";").

(** An entry the interface can answer with: a code of a known market
    without line terminators, equals signs and semicolons, and more than
    thirty-two fields without line terminators, tildes and semicolons. *)
Definition wellFormedEntry (e : string * list string) : bool :=
  Market.known (fst e)
  && forallb codeChar (list_ascii_of_string (fst e))
  && (32 <? List.length (snd e))%nat
  && forallb (fun f => forallb fieldChar (list_ascii_of_string f)) (snd e).
End Quotes.

(* ===================================================================== *)
(** ** [getStockJumpUrl] *)
(* ===================================================================== *)

Module JumpUrl.
Import Types Market.

Inductive Platform := tonghuashun | xueqiu | eastmoney.

(** [stockCode.replace(/^0+/, '')] *)
Fixpoint stripLeadingZeros (s : string) : string :=
  match s with
  | String c r => if Ascii.eqb c "0" then stripLeadingZeros r else s
  | EmptyString => s
  end.

(** A run of [n] zeros. *)
Definition zeros (n : nat) : string := string_of_list_ascii (repeat "0"%char n).

Definition marketPrefix (market : StockMarket) : string :=
  match market with SH => "SH" | SZ => "SZ" | HK => "HK" | unknown => "" end.

Definition isHK (market : StockMarket) : bool :=
  match market with HK => true | _ => false end.

Definition isSH (market : StockMarket) : bool :=
  match market with SH => true | _ => false end.

Section Url.
(** [String.prototype.toUpperCase], a built-in of the language. *)
Variable toUpperCase : string -> string.

Definition getStockJumpUrl (stockCode : string) (platform : Platform) : string :=
  let market := getStockMarket stockCode in
  let prefix := marketPrefix market in
  match platform with
  | tonghuashun =>
      if isHK market then
        String.append "https://stockpage.10jqka.com.cn/HK"
          (String.append (stripLeadingZeros stockCode) "/")
      else
        String.append "https://stockpage.10jqka.com.cn/" (String.append stockCode "/")
  | xueqiu =>
      if isHK market && String.eqb prefix "HK"
         && negb (startsWith (toUpperCase stockCode) "HK") then
        String.append "https://xueqiu.com/S/HK" stockCode
      else
        String.append "https://xueqiu.com/S/" (String.append prefix stockCode)
  | eastmoney =>
      if isHK market then
        String.append "https://quote.eastmoney.com/hk/" (String.append stockCode ".html")
      else if isSH market then
        String.append "https://quote.eastmoney.com/sh" (String.append stockCode ".html")
      else
        String.append "https://quote.eastmoney.com/sz" (String.append stockCode ".html")
  end.
End Url.
End JumpUrl.

(* ===================================================================== *)
(** ** [formatChange] of the detail panel and [formatChangeRate] of the list *)
(* ===================================================================== *)

Module Format.
Import JsNumber.

Record ChangeView := {
  text : string;
  cls : string
}.

Section Fixed.
Variable NumberToString : number -> string.

(** [formatChange(val)], [None] for [undefined]. *)
Definition formatChange (val : option string) : ChangeView :=
  match val with
  | None => {| text := "--"; cls := "" |}
  | Some val =>
      if negb (truthy val) then {| text := "--"; cls := "" |}
      else
        let num := parseFloat val in
        if isNaN num then {| text := "--"; cls := "" |}
        else
          {| text := String.append (if gtb num zero then "+" else "")
                       (String.append (toFixed2 NumberToString num) "%");
             cls := if gtb num zero then "up"
                    else if ltb num zero then "down" else "flat" |}
  end.

(** [formatChangeRate(rate)] *)
Definition formatChangeRate (rate : string) : ChangeView :=
  let num := parseFloat rate in
  if isNaN num then {| text := "--"; cls := "" |}
  else
    {| text := String.append (if gtb num zero then "+" else "")
                 (String.append (toFixed2 NumberToString num) "%");
       cls := if gtb num zero then "up"
              else if ltb num zero then "down" else "flat" |}.
End Fixed.
End Format.

(* ===================================================================== *)
(** ** The trading phase of [getMarketTrendAnalysisStream] *)
(* ===================================================================== *)

Module TrendPrompt.
Import Trading.
Local Open Scope Z_scope.



End TrendPrompt.

(* ===================================================================== *)
(** ** The event stream of the two AI requests *)
(* ===================================================================== *)

(** [getFundAISummaryStream] and [getMarketTrendAnalysisStream] read the
    body of the response with the same loop.  A chunk is the text the
    streaming decoder gives for the bytes of one [reader.read()]. *)
Module Sse.
Import JsString.

Record StreamState := {
  sseBuffer : string;
  done : bool;
(** what [onMessage] was called with, the first call first *)
delivered : list string
}.

Definition start : StreamState :=
  {| sseBuffer := EmptyString; done := false; delivered := [] |}.

Section Stream.
(** [JSON.parse(dataStr)] followed by [choices?.[0]?.delta?.content]:
    [None] when the parse throws or the content is missing or empty. *)
Variable contentOf : string -> option string.

(** [for (const line of lines)], from the messages [msgs] delivered so
    far: whether [[DONE]] was met, and the messages delivered then. *)
Fixpoint readLines (lines : list string) (msgs : list string) : bool * list string :=
  match lines with
  | [] => (false, msgs)
  | line :: rest =>
      let trimmed := trim line in
      if Market.startsWith trimmed "data: " then
        let dataStr := sliceFrom 6 trimmed in
        if String.eqb dataStr "[DONE]" then (true, msgs)
        else
          match contentOf dataStr with
          | Some content => readLines rest (msgs ++ [content])
          | None => readLines rest msgs
          end
      else readLines rest msgs
  end.

(** One turn of the loop on a chunk of decoded text. *)
Definition onChunk (st : StreamState) (value : string) : StreamState :=
  let text := String.append (sseBuffer st) value in
  let lines := split (ascii_of_nat 10) text in
  let r := readLines (List.removelast lines) (delivered st) in
  {| sseBuffer := List.last lines EmptyString; done := fst r; delivered := snd r |}.

(** The loop over the chunks the reader yields before it reports the
    end of the stream. *)
Fixpoint readAll (chunks : list string) (st : StreamState) : StreamState :=
  match chunks with
  | [] => st
  | value :: rest =>
      let st' := onChunk st value in
      if done st' then st' else readAll rest st'
  end.

Definition streamMessages (chunks : list string) : list string :=
  delivered (readAll chunks start).
End Stream.

(** The text of the whole stream. *)
Definition wholeText (chunks : list string) : string :=
  fold_right String.append EmptyString chunks.

Definition lineFeed : ascii := ascii_of_nat 10.

(** No line feed occurs in [s]. *)
Definition noLineFeed (s : string) : Prop :=
  ~ List.In lineFeed (list_ascii_of_string s).
End Sse.

(* ===================================================================== *)
(** ** [getFundEstimate] and the time shown in the list *)
(* ===================================================================== *)

Module NetWorth.
Import Types JsNumber JsString.
Local Open Scope Z_scope.

(** What [getFullYear()], [getMonth()] and [getDate()] return for
    [new Date(timestamp)]: three integers, or NaN each for an invalid
    date. *)
Inductive DateFields :=
| InvalidDate
| LocalDate (fullYear month date : Z).

Record TrendPoint := {
  x : DateFields;
  y : number;
  equityReturn : number
}.

(** [v || 0] on numbers: NaN and the two zeros are falsy. *)
Definition orZero (v : number) : number :=
  match v with
  | S754_nan | S754_zero _ => zero
  | _ => v
  end.

Definition dateStr (d : DateFields) : string :=
  match d with
  | InvalidDate => "NaN-NaN-NaN"
  | LocalDate fullYear month date =>
      String.append (ofInteger fullYear)
        (String.append "-"
           (String.append (padStart2 (ofInteger (month + 1)))
              (String.append "-" (padStart2 (ofInteger date)))))
  end.

Section Estimate.
Variable NumberToString : number -> string.

(** The body of [script.onload]: [fS_name] and [Data_netWorthTrend] are
    the globals set by the loaded script, the latter [None] when it is
    not an array. *)
Definition getFundEstimate (code : string) (fS_name : string)
    (netWorthTrend : option (list TrendPoint)) : option FundEstimate :=
  match netWorthTrend with
  | Some trend =>
      match List.last (List.map Some trend) None with
      | Some latest =>
          let nav := orZero (y latest) in
          let changePct := orZero (equityReturn latest) in
          Some {| estCode := code;
                  estName := orElse fS_name "";
                  gsz := NumberToString nav;
                  gszzl := NumberToString changePct;
                  gztime := String.append (dateStr (x latest)) " (准确净值)";
                  dwjz := "" |}
      | None => None
      end
  | None => None
  end.
End Estimate.

Definition notSpace (ch : ascii) : bool := negb (Ascii.eqb ch " ").

(** [est?.gztime?.split(' ')[1] || ''] of the list *)
Definition shownTime (est : option FundEstimate) : string :=
  match est with
  | Some e => orElse (nth 1 (split " " (gztime e)) EmptyString) ""
  | None => ""
  end.
End NetWorth.

(* ===================================================================== *)
(** ** The dialog that adds a fund *)
(* ===================================================================== *)

(** The handlers of [AddFundModal] as steps on the state of the component
    and the store.  [handleSearch] is two steps, before and after its
    [await], so that other events may fall between them. *)
Module AddFundModal.
Import Types JsNumber JsString Store NetWorth.

Record SearchResult := {
  resultCode : string;
  resultName : string;
  resultLoading : bool
}.

(** The state of the component, and the codes [getFundEstimate] was
    called on by searches that still wait for its promise. *)
Record Modal := {
  inputCode : string;
  searching : bool;
  result : option SearchResult;
  error : string;
  pending : list string
}.

Definition initial : Modal :=
  {| inputCode := ""; searching := false; result := None; error := ""; pending := [] |}.

(** The test of the pattern [^\d{6}$]. *)
Definition isSixDigits (c : string) : bool :=
  Nat.eqb (String.length c) 6 && forallb isDigit (list_ascii_of_string c).

(** The codes of the funds offered below the input. *)
Definition tips : list string := ["161725"; "110011"; "003834"; "005827"; "012414"].

Fixpoint removeOne (c : string) (l : list string) : list string :=
  match l with
  | [] => []
  | x :: r => if String.eqb x c then r else x :: removeOne c r
  end.

Inductive Event :=
(** [onChange] of the input *)
| Typed (value : string)
(** a click on the offered fund with code [c] *)
| TipClicked (c : string)
(** [handleSearch] up to its [await] *)
| SearchClicked
(** the promise of [getFundEstimate(c)] is resolved: the script set the
    globals [loaded], or it failed to load or timed out *)
| SearchResolved (c : string) (loaded : option (string * option (list TrendPoint)))
(** [handleAdd] at the time [now] *)
| AddClicked (now : Z).

Section Dialog.
Variable NumberToString : number -> string.

Definition step (s : Modal * World) (e : Event) : Modal * World :=
  let (m, w) := s in
  match e with
  | Typed value =>
      ({| inputCode := value; searching := searching m; result := None;
          error := ""; pending := pending m |}, w)
  | TipClicked c =>
      if existsb (String.eqb c) tips then
        match List.find (hasCode c) (funds (state w)) with
        | Some _ => s
        | None =>
            ({| inputCode := c; searching := searching m; result := None;
                error := ""; pending := pending m |}, w)
        end
      else s
  | SearchClicked =>
      let c := trim (inputCode m) in
      let failed (message : string) :=
        ({| inputCode := inputCode m; searching := searching m; result := result m;
            error := message; pending := pending m |}, w) in
      if negb (truthy c) then failed "请输入基金代码"
      else if negb (isSixDigits c) then failed "请输入6位数字基金代码"
      else
        match List.find (hasCode c) (funds (state w)) with
        | Some _ => failed "该基金已在列表中"
        | None =>
            ({| inputCode := inputCode m; searching := true; result := None;
                error := ""; pending := c :: pending m |}, w)
        end
  | SearchResolved c loaded =>
      if existsb (String.eqb c) (pending m) then
        let est :=
          match loaded with
          | Some (fS_name, netWorthTrend) =>
              getFundEstimate NumberToString c fS_name netWorthTrend
          | None => None
          end in
        match est with
        | Some est =>
            if truthy (estName est) then
              ({| inputCode := inputCode m; searching := false;
                  result := Some {| resultCode := estCode est;
                                    resultName := estName est;
                                    resultLoading := false |};
                  error := error m; pending := removeOne c (pending m) |}, w)
            else
              ({| inputCode := inputCode m; searching := false; result := result m;
                  error := "未找到该基金，请检查代码";
                  pending := removeOne c (pending m) |}, w)
        | None =>
            ({| inputCode := inputCode m; searching := false; result := result m;
                error := "未找到该基金，请检查代码";
                pending := removeOne c (pending m) |}, w)
        end
      else s
  | AddClicked now =>
      match result m with
      | None => s
      | Some r =>
          ({| inputCode := ""; searching := searching m; result := None;
              error := ""; pending := pending m |},
           addFund {| newCode := resultCode r; newName := resultName r;
                      newType := None; newManager := None;
                      newShares := None; newCost := None |} now w)
      end
  end.

Definition run (s : Modal * World) (events : list Event) : Modal * World :=
  fold_left step events s.
End Dialog.

(** A code of six digits with a name that is not empty. *)
Definition vetted (c n : string) : Prop := isSixDigits c = true /\ n <> "".

(** The codes in flight are six digits, so is the code of the result, and
    every fund of the list was in [before] or is vetted. *)
Definition allVetted (before : list MyFund) (s : Modal * World) : Prop :=
  Forall (fun c => isSixDigits c = true) (pending (fst s))
  /\ (forall r, result (fst s) = Some r -> vetted (resultCode r) (resultName r))
  /\ (forall f, List.In f (funds (state (snd s))) ->
                List.In f before \/ vetted (code f) (name f)).
End AddFundModal.

(* ===================================================================== *)
(** ** Histories of the store *)
(* ===================================================================== *)

Module StoreHistory.
Import Types Store.

(** The estimate of the latest [setEstimate] for [c] among [actions]. *)
Definition lastEstimate (c : string) (actions : list Action) : option FundEstimate :=
  fold_left (fun found a =>
               match a with
               | SetEstimate c' e => if String.eqb c' c then Some e else found
               | _ => found
               end) actions None.

(** The detail of the latest [setDetail] for [c] among [actions]. *)
Definition lastDetail (c : string) (actions : list Action) : option FundDetail :=
  fold_left (fun found a =>
               match a with
               | SetDetail c' d => if String.eqb c' c then Some d else found
               | _ => found
               end) actions None.

(** The selected code, if there is one, is the code of a fund of the list. *)
Definition selectionListed (w : World) : Prop :=
  match selectedCode (state w) with
  | Some c => List.In c (codes w)
  | None => True
  end.

(** Run from [w], every [selectFund] among [actions] is called on the code
    of a fund that is in the list at that moment, as the cards of the
    list call it. *)
Fixpoint selectsListed (w : World) (actions : list Action) : Prop :=
  match actions with
  | [] => True
  | a :: rest =>
      match a with
      | SelectFund c => List.In c (codes w)
      | _ => True
      end /\ selectsListed (step w a) rest
  end.
End StoreHistory.

(* ===================================================================== *)
(** ** Further inputs *)
(* ===================================================================== *)

Module MoreExamples.
Import Types JsNumber.

(** Thirty-three fields, the price at index 3, the change at 31 and the
    change in percent at 32. *)
Definition fields : list string :=
  ["1"; "name"; "600519"; "1700.00"] ++ repeat "0" 27 ++ ["-11.19"; "-0.76"].

Definition upperCase (s : string) : string :=
  string_of_list_ascii
    (List.map (fun c => let n := nat_of_ascii c in
                        if (97 <=? n)%nat && (n <=? 122)%nat
                        then ascii_of_nat (n - 32) else c)
              (list_ascii_of_string s)).

(** A decoder of the payloads in the examples: the payload itself. *)
Definition plainContent (s : string) : option string :=
  if String.eqb s "" then None else Some s.

Definition newline : string := String (ascii_of_nat 10) EmptyString.

(** The fields of a second line. *)
Definition otherFields : list string :=
  ["51"; "name"; "000001"; "11.20"] ++ repeat "" 27 ++ ["0.05"; "0.45"; "more"].

(** A search for a code typed with spaces around it, answered and
    confirmed. *)
Definition searchAndAdd : list AddFundModal.Event :=
  [AddFundModal.Typed " 161725 ";
   AddFundModal.SearchClicked;
   AddFundModal.SearchResolved "161725"
     (Some ("gamma", Some [ {| NetWorth.x := NetWorth.LocalDate 2025 0 2;
                               NetWorth.y := one;
                               NetWorth.equityReturn := zero |} ]));
   AddFundModal.AddClicked 1700000002000].

(** The quotes of [Examples.twoQuotes] and one more, left from a fund
    shown before. *)
Definition staleQuotes : gmap string StockQuote :=
  <["300750" := snd (Examples.quote "300750" "4.2")]> Examples.twoQuotes.

(** A detail whose holdings are not traded on a market the classifier
    knows. *)
Definition foreignHoldings : list HoldingStock :=
  [Examples.holding "AAPL" "9.5"; Examples.holding "MSFT" "8.1"].
End MoreExamples.

(* ===================================================================== *)
(** ** The numbers on examples *)
(* ===================================================================== *)

(** Closed statements are settled by evaluation. *)
Ltac evaluate := repeat split; vm_compute; first [reflexivity | discriminate].

Module NumberExamples.
Import JsNumber Examples.

(** The longest numeral at the head of the string is read. *)
Example parseFloat_prefix :
  parseFloat "  -2.0" = ofDecimal true 2 0
  /\ parseFloat "9.85%" = parseFloat "9.85"
  /\ parseFloat "1e" = one
  /\ parseFloat "1.5e-2x" = parseFloat "0.015"
  /\ parseFloat ".5" = parseFloat "0.5"
  /\ parseFloat "2.5000" = parseFloat "2.5"
  /\ parseFloat "100" = hundred.
Proof. evaluate. Qed.

Example parseFloat_not_a_number :
  parseFloat "--" = NaN /\ parseFloat "" = NaN /\ parseFloat "." = NaN
  /\ parseFloat "n/a" = NaN /\ parseFloat "+.e1" = NaN.
Proof. evaluate. Qed.

Example parseFloat_special :
  parseFloat "-Infinity" = S754_infinity true
  /\ parseFloat "-0" = S754_zero true
  /\ parseFloat "1e400" = S754_infinity false
  /\ parseFloat "1e-400" = zero.
Proof. evaluate. Qed.

(** Decimal fractions are rounded to the nearest double, and arithmetic
    rounds again. *)
Example one_tenth :
  parseFloat "0.1" = S754_finite false 7205759403792794 (-56)
  /\ add (parseFloat "0.1") (parseFloat "0.2") = parseFloat "0.30000000000000004"
  /\ eqb (add (parseFloat "0.1") (parseFloat "0.2")) (parseFloat "0.3") = false.
Proof. evaluate. Qed.

Example toFixed2_rounds :
  toFixed2 plainToString (parseFloat "65") = "65.00"
  /\ toFixed2 plainToString (parseFloat "57.425") = "57.42"
  /\ toFixed2 plainToString (parseFloat "0.125") = "0.13"
  /\ toFixed2 plainToString (parseFloat "1.005") = "1.00"
  /\ toFixed2 plainToString (parseFloat "-0.001") = "-0.00"
  /\ toFixed2 plainToString (parseFloat "-0.20000000000000007") = "-0.20".
Proof. evaluate. Qed.
End NumberExamples.

(* ===================================================================== *)
(** ** Properties of the numbers *)
(* ===================================================================== *)

Module NumberFacts.
Import JsNumber.
Local Open Scope Z_scope.





(** *** Exact operations

    A finite number [m * 2 ^ e] is a double when [bounded] holds of its
    mantissa and exponent; rounding such a pair changes nothing. *)

Lemma one_eq : one = S754_finite false 4503599627370496 (-52).
Proof. reflexivity. Qed.

Lemma canonical_exp m e :
  bounded prec emax m e = true ->
  fexp prec emax (Zpos (digits2_pos m) + e) = e /\ e <= 971.
Proof.
  unfold bounded, canonical_mantissa. intros H. apply andb_prop in H as [Hc He].
  apply Z.eqb_eq in Hc. apply Z.leb_le in He. unfold emax, prec in *. split; [exact Hc | lia].
Qed.

Lemma round_exact_tail s m e :
  bounded prec emax m e = true ->
  (let '(mrs, e') := shr_fexp prec emax (Zpos m) e loc_Exact in
   match shr_m mrs with
   | 0 => S754_zero s
   | Zpos m0 => if e' <=? emax - prec then S754_finite s m0 e' else S754_infinity s
   | Zneg _ => S754_nan
   end) = S754_finite s m e.
Proof.
  intros Hb. destruct (canonical_exp _ _ Hb) as [Hc He].
  unfold shr_fexp. cbn [Zdigits2 shr_record_of_loc].
  rewrite Hc, Z.sub_diag. cbn [shr shr_m].
  replace (e <=? emax - prec) with true; [reflexivity|].
  symmetry. apply Z.leb_le. unfold emax, prec. lia.
Qed.

Lemma round_exact s m e :
  bounded prec emax m e = true ->
  binary_round_aux prec emax s (Zpos m) e loc_Exact = S754_finite s m e.
Proof.
  intros Hb. destruct (canonical_exp _ _ Hb) as [Hc He].
  unfold binary_round_aux, shr_fexp. cbn [Zdigits2 shr_record_of_loc].
  rewrite Hc, Z.sub_diag. cbn [shr shr_m loc_of_shr_record round_nearest_even Zdigits2 shr_record_of_loc].
  rewrite Hc, Z.sub_diag. cbn [shr shr_m].
  replace (e <=? emax - prec) with true; [reflexivity|].
  symmetry. apply Z.leb_le. unfold emax, prec. lia.
Qed.

Lemma mul_one_l x : valid_binary prec emax x = true -> mul one x = x.
Proof.
  destruct x as [s|s| |s m e]; try reflexivity.
  cbn [valid_binary]. intros Hb. destruct (canonical_exp _ _ Hb) as [Hc He].
  rewrite one_eq. unfold mul, SFmul. cbn [xorb].
  unfold binary_round_aux at 1. unfold shr_fexp at 1.
  cbn [Zdigits2 shr_record_of_loc].
  let t := eval cbv [Pos.mul] in (4503599627370496 * m)%positive in
    change (4503599627370496 * m)%positive with t.
  cbn [digits2_pos].
  match goal with |- context [fexp prec emax ?a] =>
    replace a with (Zpos (digits2_pos m) + e) by lia end.
  rewrite Hc. replace (e - (-52 + e)) with 52 by lia.
  cbv [shr SpecFloat.iter_pos shr_1 orb loc_of_shr_record round_nearest_even shr_m].
  replace (-52 + e + 52) with e by lia.
  exact (round_exact_tail s m e Hb).
Qed.

Lemma div_eucl_pair a b : Z.div_eucl a b = (a / b, a mod b).
Proof. unfold Z.div, Z.modulo. now destruct (Z.div_eucl a b). Qed.

Lemma div_core_one m e :
  bounded prec emax m e = true ->
  SFdiv_core_binary prec emax (Zpos m) e 4503599627370496 (-52) =
    (if e =? -1074 then (Zpos m, e, loc_Exact) else (Zpos m~0, e - 1, loc_Exact)).
Proof.
  intros Hb. destruct (canonical_exp _ _ Hb) as [Hc He].
  unfold SFdiv_core_binary. cbn [Zdigits2].
  change (Zpos (digits2_pos 4503599627370496)) with 53.
  unfold fexp, SpecFloat.emin, prec, emax in Hc |- *.
  destruct (Z.eqb_spec e (-1074)) as [He0 | He0].
  - replace (Z.min _ (e - -52)) with e by lia.
    replace (e - -52 - e) with 52 by lia.
    rewrite div_eucl_pair, Z.shiftl_mul_pow2 by lia.
    rewrite Z.div_mul, Z.mod_mul by lia. reflexivity.
  - replace (Z.min _ (e - -52)) with (e - 1) by lia.
    replace (e - -52 - (e - 1)) with 53 by lia.
    rewrite div_eucl_pair, Z.shiftl_mul_pow2 by lia.
    replace (Zpos m * 2 ^ 53) with (Zpos m~0 * 4503599627370496) by lia.
    rewrite Z.div_mul, Z.mod_mul by lia. reflexivity.
Qed.

Lemma div_one_r x : valid_binary prec emax x = true -> div x one = x.
Proof.
  destruct x as [s|s| |s m e]; try (destruct s; reflexivity); try reflexivity.
  cbn [valid_binary]. intros Hb. destruct (canonical_exp _ _ Hb) as [Hc He].
  rewrite one_eq. unfold div, SFdiv. rewrite (div_core_one _ _ Hb), xorb_false_r.
  destruct (Z.eqb_spec e (-1074)) as [He0 | He0]; [now apply round_exact|].
  unfold binary_round_aux at 1. unfold shr_fexp at 1.
  cbn [Zdigits2 digits2_pos shr_record_of_loc].
  match goal with |- context [fexp prec emax ?a] =>
    replace a with (Zpos (digits2_pos m) + e) by lia end.
  rewrite Hc. replace (e - (e - 1)) with 1 by lia.
  cbv [shr SpecFloat.iter_pos shr_1 orb loc_of_shr_record round_nearest_even shr_m].
  replace (e - 1 + 1) with e by lia.
  exact (round_exact_tail s m e Hb).
Qed.

Lemma eqb_refl x : isNaN x = false -> eqb x x = true.
Proof.
  unfold eqb, SFeqb. destruct x as [s|s| |s m e]; try discriminate; intros _;
    try (destruct s; reflexivity).
  cbn. rewrite Z.compare_refl, Pos.compare_cont_refl. now destruct s.
Qed.

(** Multiplying by one, adding to zero and dividing by one give back the
    number, up to the sign of zero. *)
Lemma through_one c :
  valid_binary prec emax c = true -> isNaN c = false ->
  eqb (div (add zero (mul one c)) one) c = true.
Proof.
  intros Hv Hn. rewrite (mul_one_l _ Hv).
  destruct c as [[|]|s| |s m e]; try discriminate; try reflexivity.
  - destruct s; reflexivity.
  - change (add zero (S754_finite s m e)) with (S754_finite s m e).
    rewrite (div_one_r _ Hv). now apply eqb_refl.
Qed.
End NumberFacts.

(* ===================================================================== *)
(** ** Properties of the estimator *)
(* ===================================================================== *)

Module EstimatorFacts.
Import Types JsNumber Estimator.

Section Loop.
Variable quotes : gmap string StockQuote.

Lemma visit_counted acc h :
  contributes quotes h = true ->
  visit quotes acc h =
    {| totalWeightedChange :=
         add (totalWeightedChange acc) (mul (weightOf h) (changeOf quotes h));
       totalRatio := add (totalRatio acc) (weightOf h);
       hasValidData := true |}.
Proof.
  unfold contributes, visit, changeOf, weightOf.
  destruct (quotes !! stockCode h) as [q|]; [|discriminate].
  destruct (changePct q) as [pct|]; [|discriminate].
  intros Hc. apply andb_prop in Hc as [Hc Hchange].
  apply andb_prop in Hc as [Hpct Hratio].
  now rewrite Hpct, Hratio, Hchange.
Qed.

Lemma visit_skipped acc h :
  contributes quotes h = false -> visit quotes acc h = acc.
Proof.
  unfold contributes, visit.
  destruct (quotes !! stockCode h) as [q|]; [|reflexivity].
  destruct (changePct q) as [pct|]; [|reflexivity].
  destruct (negb (String.eqb pct "--")); [|reflexivity].
  cbn [andb]. now intros ->.
Qed.

(** The loop adds up the counted holdings and nothing else. *)
Lemma loop_sums hs : forall acc,
  fold_left (visit quotes) hs acc =
    {| totalWeightedChange :=
         fold_left add
           (List.map (fun h => mul (weightOf h) (changeOf quotes h))
              (List.filter (contributes quotes) hs))
           (totalWeightedChange acc);
       totalRatio :=
         fold_left add (List.map weightOf (List.filter (contributes quotes) hs))
           (totalRatio acc);
       hasValidData := hasValidData acc || existsb (contributes quotes) hs |}.
Proof.
  induction hs as [|h hs IH]; intros acc; cbn [fold_left List.filter existsb List.map].
  - rewrite orb_false_r. now destruct acc.
  - destruct (contributes quotes h) eqn:Hh.
    + rewrite (visit_counted _ _ Hh), IH. cbn. now rewrite orb_true_r.
    + rewrite (visit_skipped _ _ Hh), IH. reflexivity.
Qed.

Lemma no_contribution hs :
  existsb (contributes quotes) hs = false ->
  List.filter (contributes quotes) hs = [].
Proof.
  induction hs as [|h hs IH]; [reflexivity|]. cbn.
  destruct (contributes quotes h); [discriminate|]. exact IH.
Qed.

Lemma weightSum_nonzero_counted hs :
  eqb (weightSum quotes hs) zero = false ->
  existsb (contributes quotes) hs = true.
Proof.
  destruct (existsb (contributes quotes) hs) eqn:He; [reflexivity|].
  unfold weightSum. rewrite (no_contribution _ He). discriminate.
Qed.

Lemma counted_has_quote hs :
  existsb (contributes quotes) hs = true -> hs <> [] /\ size quotes <> 0%nat.
Proof.
  intros He. apply existsb_exists in He as (h & Hin & Hh). split.
  - intros ->. destruct Hin.
  - unfold contributes in Hh.
    destruct (quotes !! stockCode h) as [q|] eqn:Hq; [|discriminate].
    intros Hsz. apply map_size_empty_iff in Hsz. subst quotes.
    rewrite lookup_empty in Hq. discriminate.
Qed.
End Loop.

(** The value of the memo in terms of the two sums. *)
Lemma estimate_unfold d quotes e :
  estimate (Some d) quotes (Some e) =
    if Nat.eqb (List.length (holdings d)) 0 || Nat.eqb (size quotes) 0
       || negb (existsb (contributes quotes) (holdings d))
       || eqb (weightSum quotes (holdings d)) zero
    then unavailable
    else
      let p := div (weightedChangeSum quotes (holdings d)) (weightSum quotes (holdings d)) in
      {| estimatedChangePct := Some p;
         realTimeEstimatedNav := Some (mul (baseNavOf e) (add one (div p hundred)));
         totalKnownRatio := mul (weightSum quotes (holdings d)) hundred |}.
Proof.
  unfold estimate. rewrite loop_sums. cbn [hasValidData totalRatio totalWeightedChange init orb].
  fold (sum (List.map weightOf (List.filter (contributes quotes) (holdings d)))).
  fold (weightSum quotes (holdings d)).
  destruct (Nat.eqb (List.length (holdings d)) 0 || Nat.eqb (size quotes) 0); [reflexivity|].
  cbn [orb].
  destruct (negb (existsb (contributes quotes) (holdings d)) || eqb (weightSum quotes (holdings d)) zero);
    reflexivity.
Qed.

(** With a sum of weights other than zero the memo holds the figures. *)
Lemma estimate_weighted d quotes e :
  eqb (weightSum quotes (holdings d)) zero = false ->
  estimate (Some d) quotes (Some e) =
    {| estimatedChangePct :=
         Some (div (weightedChangeSum quotes (holdings d)) (weightSum quotes (holdings d)));
       realTimeEstimatedNav :=
         Some (mul (baseNavOf e)
                 (add one (div (div (weightedChangeSum quotes (holdings d))
                                    (weightSum quotes (holdings d))) hundred)));
       totalKnownRatio := mul (weightSum quotes (holdings d)) hundred |}.
Proof.
  intros Hw. rewrite estimate_unfold.
  pose proof (weightSum_nonzero_counted _ _ Hw) as Hc.
  destruct (counted_has_quote _ _ Hc) as [Hhs Hq].
  replace (Nat.eqb (List.length (holdings d)) 0) with false
    by (destruct (holdings d); [contradiction|reflexivity]).
  replace (Nat.eqb (size quotes) 0) with false
    by (symmetry; now apply Nat.eqb_neq).
  rewrite Hc, Hw. reflexivity.
Qed.
End EstimatorFacts.

Module EstimatorClaims.
Import Types JsNumber Estimator NumberFacts EstimatorFacts Examples.

(** C1 (as amended).  When the weights of the counted holdings do not sum
    to zero, the estimated change is the sum of weight times change over
    the counted holdings divided by the sum of their weights, and the known
    ratio is that sum of weights times one hundred; the sums and the
    quotient are formed in double arithmetic, in the order of the list. *)
Theorem weighted_average_of_counted d quotes e :
  eqb (weightSum quotes (holdings d)) zero = false ->
  estimatedChangePct (estimate (Some d) quotes (Some e)) =
    Some (div (weightedChangeSum quotes (holdings d)) (weightSum quotes (holdings d)))
  /\ totalKnownRatio (estimate (Some d) quotes (Some e)) =
       mul (weightSum quotes (holdings d)) hundred.
Proof.
  intros Hw. rewrite (estimate_weighted _ _ _ Hw). split; reflexivity.
Qed.

Lemma weighted_average_of_counted_witness :
  estimatedChangePct
    (estimate (Some (detailOf twoHoldings)) twoQuotes (Some (estimateOf "2.5"))) =
    Some (div (weightedChangeSum twoQuotes twoHoldings) (weightSum twoQuotes twoHoldings))
  /\ totalKnownRatio
       (estimate (Some (detailOf twoHoldings)) twoQuotes (Some (estimateOf "2.5"))) =
       mul (weightSum twoQuotes twoHoldings) hundred.
Proof.
  apply (weighted_average_of_counted (detailOf twoHoldings) twoQuotes (estimateOf "2.5")).
  vm_compute. reflexivity.
Defined.

(** C1 as stated fails: a holding of weight zero has a quote with a numeric
    change and a numeric weight, yet no change percentage is reported. *)
Lemma zero_weight_not_averaged :
  existsb (contributes oneQuote) zeroWeight = true
  /\ estimatedChangePct
       (estimate (Some (detailOf zeroWeight)) oneQuote (Some (estimateOf "2.5")))
     <> Some (div (weightedChangeSum oneQuote zeroWeight) (weightSum oneQuote zeroWeight)).
Proof. evaluate. Qed.

(** C2 (as amended).  Whenever a change percentage [p] is reported, the
    estimated NAV is the last confirmed NAV times [1 + p / 100]; for the
    last NAV 2.5 and weights 60 and 40 with changes +1.0 and -2.0 the
    change percentage is -0.20000000000000007, the double that
    [0.6 * 1.0 + 0.4 * (-2.0)] rounds to, and the estimated NAV is 2.495. *)
Theorem estimated_nav_formula :
  (forall detail quotes est p,
      estimatedChangePct (estimate detail quotes est) = Some p ->
      exists e, est = Some e
        /\ realTimeEstimatedNav (estimate detail quotes est) =
             Some (mul (baseNavOf e) (add one (div p hundred))))
  /\ estimate (Some (detailOf twoHoldings)) twoQuotes (Some (estimateOf "2.5")) =
       {| estimatedChangePct := Some (parseFloat "-0.20000000000000007");
          realTimeEstimatedNav := Some (parseFloat "2.495");
          totalKnownRatio := parseFloat "100" |}.
Proof.
  split; [|vm_compute; reflexivity].
  intros [d|] quotes [e|] p; try discriminate.
  rewrite estimate_unfold.
  destruct (_ || _ || _ || _); [discriminate|].
  cbn. intros [= <-]. now exists e.
Qed.

Lemma estimated_nav_formula_witness :
  exists e, Some (estimateOf "2.5") = Some e
    /\ realTimeEstimatedNav
         (estimate (Some (detailOf twoHoldings)) twoQuotes (Some (estimateOf "2.5"))) =
         Some (mul (baseNavOf e) (add one (div (parseFloat "-0.20000000000000007") hundred))).
Proof.
  apply (proj1 estimated_nav_formula (Some (detailOf twoHoldings)) twoQuotes
           (Some (estimateOf "2.5")) (parseFloat "-0.20000000000000007")).
  vm_compute. reflexivity.
Defined.

(** C2 as stated fails in its example.  Neither 0.6 nor 0.8 is a double;
    the doubles nearest to them differ by 0.2000000000000000666..., itself
    a double, two units in the last place away from the double nearest to
    0.2.  So the change percentage reported for weights 60 and 40 with
    changes +1.0 and -2.0 is -0.20000000000000007 and not -0.2. *)
Lemma example_change_is_not_minus_point_two :
  exists p,
    estimatedChangePct
      (estimate (Some (detailOf twoHoldings)) twoQuotes (Some (estimateOf "2.5"))) = Some p
    /\ eqb p (parseFloat "-0.2") = false.
Proof.
  exists (parseFloat "-0.20000000000000007"). split; vm_compute; reflexivity.
Qed.

(** C3 (as amended).  The memo is unavailable exactly when there are no
    holdings, or no quotes, or no fund estimate, or the weights of the
    counted holdings sum to zero, which is so whenever no holding has a
    quote with a numeric change; otherwise both figures are numbers. *)
Theorem unavailable_exactly detail quotes est :
  (estimate detail quotes est = unavailable <->
     holdingsOf detail = [] \/ size quotes = 0%nat \/ est = None
     \/ eqb (weightSum quotes (holdingsOf detail)) zero = true)
  /\ (estimate detail quotes est <> unavailable ->
        exists p n k, estimate detail quotes est =
          {| estimatedChangePct := Some p; realTimeEstimatedNav := Some n;
             totalKnownRatio := k |})
  /\ (existsb (hasNumericQuote quotes) (holdingsOf detail) = false ->
        eqb (weightSum quotes (holdingsOf detail)) zero = true).
Proof.
  split; [|split].
  - destruct detail as [d|]; [|cbn; split; [intros _; now left | reflexivity]].
    destruct est as [e|]; [|cbn; split; [intros _; now right; right; left| reflexivity]].
    rewrite estimate_unfold. cbn [holdingsOf].
    destruct (holdings d) as [|h hs] eqn:Hhs; [cbn; split; [now left|reflexivity]|].
    cbn [List.length Nat.eqb orb].
    destruct (Nat.eqb (size quotes) 0) eqn:Hq.
    { apply Nat.eqb_eq in Hq. cbn. split; [intros _; now right; left | reflexivity]. }
    apply Nat.eqb_neq in Hq. cbn [orb].
    destruct (eqb (weightSum quotes (h :: hs)) zero) eqn:Hw.
    { rewrite orb_true_r. split; [intros _; now right; right; right | reflexivity]. }
    rewrite (weightSum_nonzero_counted _ _ Hw). cbn.
    split; [discriminate|]. intros [H|[H|[H|H]]]; congruence.
  - destruct detail as [d|], est as [e|]; try (intros H; now contradiction H).
    rewrite estimate_unfold. destruct (_ || _ || _ || _); [intros H; now contradiction H|].
    intros _. cbn. eauto.
  - intros Hn. unfold weightSum.
    replace (List.filter (contributes quotes) (holdingsOf detail)) with (@nil HoldingStock);
      [reflexivity|].
    symmetry. apply no_contribution.
    induction (holdingsOf detail) as [|h hs IH]; [reflexivity|].
    cbn in Hn |- *. apply orb_false_elim in Hn as [Hh Hhs].
    rewrite (IH Hhs), orb_false_r.
    unfold contributes. unfold hasNumericQuote in Hh.
    destruct (quotes !! stockCode h) as [q|]; [|reflexivity].
    destruct (changePct q) as [pct|]; [|reflexivity].
    destruct (negb (String.eqb pct "--")); [|reflexivity].
    cbn in Hh |- *. rewrite Hh. apply andb_false_r.
Qed.

Lemma unavailable_exactly_witness :
  exists p n k,
    estimate (Some (detailOf twoHoldings)) twoQuotes (Some (estimateOf "2.5")) =
      {| estimatedChangePct := Some p; realTimeEstimatedNav := Some n;
         totalKnownRatio := k |}.
Proof.
  apply (proj1 (proj2 (unavailable_exactly (Some (detailOf twoHoldings)) twoQuotes
                         (Some (estimateOf "2.5"))))).
  vm_compute. discriminate.
Defined.

(** C3 as stated fails: with holdings, quotes and a fund estimate present
    and a holding that has a quote with a numeric change, the memo is still
    unavailable when that holding has weight zero. *)
Lemma zero_weight_is_unavailable :
  holdingsOf (Some (detailOf zeroWeight)) <> []
  /\ size oneQuote <> 0%nat
  /\ existsb (hasNumericQuote oneQuote) zeroWeight = true
  /\ estimate (Some (detailOf zeroWeight)) oneQuote (Some (estimateOf "2.5")) = unavailable.
Proof. evaluate. Qed.

Lemma skipped_in_middle quotes (h : HoldingStock) hs1 hs2 :
  contributes quotes h = false ->
  List.filter (contributes quotes) (hs1 ++ h :: hs2) =
    List.filter (contributes quotes) (hs1 ++ hs2)
  /\ existsb (contributes quotes) (hs1 ++ h :: hs2) =
       existsb (contributes quotes) (hs1 ++ hs2).
Proof.
  intros Hh. rewrite !List.filter_app, !List.existsb_app. cbn. now rewrite Hh.
Qed.

(** C4.  A holding whose instrument has no quote, or whose quote carries
    the marker [--] or a change that does not parse, leaves the three
    variables of the loop as they are, and the memo is the one of the
    holdings without it. *)
Theorem unquoted_holding_is_skipped quotes (h : HoldingStock) :
  (quotes !! stockCode h = None
   \/ exists q, quotes !! stockCode h = Some q
        /\ (changePct q = Some "--" \/ isNaN (changeOf quotes h) = true)) ->
  (forall acc, visit quotes acc h = acc)
  /\ (forall hs1 hs2,
        weightedChangeSum quotes (hs1 ++ h :: hs2) = weightedChangeSum quotes (hs1 ++ hs2)
        /\ weightSum quotes (hs1 ++ h :: hs2) = weightSum quotes (hs1 ++ hs2))
  /\ (forall d hs1 hs2 est,
        estimate (Some (withHoldings d (hs1 ++ h :: hs2))) quotes est =
        estimate (Some (withHoldings d (hs1 ++ hs2))) quotes est).
Proof.
  intros Hskip.
  assert (Hh : contributes quotes h = false).
  { unfold contributes. destruct Hskip as [Hnone | (q & Hq & Hc)].
    - now rewrite Hnone.
    - rewrite Hq. destruct Hc as [Hm | Hnan]; [now rewrite Hm|].
      unfold changeOf in Hnan. rewrite Hq in Hnan.
      destruct (changePct q) as [pct|]; [|reflexivity].
      rewrite Hnan. apply andb_false_r. }
  split; [intros acc; now apply visit_skipped|].
  split.
  { intros hs1 hs2. unfold weightedChangeSum, weightSum.
    now destruct (skipped_in_middle quotes h hs1 hs2 Hh) as [-> _]. }
  intros d hs1 hs2 [e|]; [|reflexivity].
  rewrite !estimate_unfold. cbn [holdings withHoldings].
  unfold weightedChangeSum, weightSum.
  destruct (skipped_in_middle quotes h hs1 hs2 Hh) as [-> ->].
  destruct (hs1 ++ hs2) as [|h' hs'] eqn:Happ.
  - destruct hs1; [|discriminate]. cbn in Happ. subst hs2.
    cbn [List.length Nat.eqb existsb negb orb app].
    destruct (Nat.eqb (size quotes) 0); reflexivity.
  - replace (Nat.eqb (List.length (hs1 ++ h :: hs2)) 0) with false; [reflexivity|].
    destruct hs1; reflexivity.
Qed.

Lemma unquoted_holding_is_skipped_witness :
  estimate (Some (withHoldings (detailOf []) ([holding "600519" "60"]
              ++ holding "300750" "25" :: [holding "000001" "40"])))
    suspendedQuotes (Some (estimateOf "2.5")) =
  estimate (Some (withHoldings (detailOf []) ([holding "600519" "60"]
              ++ [holding "000001" "40"])))
    suspendedQuotes (Some (estimateOf "2.5")).
Proof.
  apply (proj2 (proj2 (unquoted_holding_is_skipped suspendedQuotes (holding "300750" "25")
                  ltac:(right; eexists; split; [vm_compute; reflexivity | left; reflexivity])))).
Defined.

Lemma add_zero_positive r : ltb zero r = true -> add zero r = r.
Proof. now destruct r as [[|]| [|] | |[|] m e]. Qed.

Lemma positive_is_number r : ltb zero r = true -> isNaN r = false /\ eqb r zero = false.
Proof. now destruct r as [[|]| [|] | |[|] m e]. Qed.

(** C5 (as amended).  For a single holding of weight [w] with
    [0 < w <= 100] and [0 < w / 100], whose instrument has a quote with a
    numeric change [c], the estimated change is
    [(0 + (w / 100) * c) / (w / 100)] in double arithmetic; for [w = 100]
    it is [c] itself, [c] being a double ([valid_binary]) as every number
    of the program is. *)
Theorem single_holding_change d (h : HoldingStock) quotes e q pct :
  holdings d = [h] ->
  quotes !! stockCode h = Some q ->
  changePct q = Some pct ->
  pct <> "--" ->
  isNaN (parseFloat pct) = false ->
  ltb zero (parseFloat (ratio h)) = true ->
  leb (parseFloat (ratio h)) hundred = true ->
  ltb zero (weightOf h) = true ->
  estimatedChangePct (estimate (Some d) quotes (Some e)) =
    Some (div (add zero (mul (weightOf h) (parseFloat pct))) (weightOf h))
  /\ (parseFloat (ratio h) = hundred ->
      valid_binary prec emax (parseFloat pct) = true ->
      exists p, estimatedChangePct (estimate (Some d) quotes (Some e)) = Some p
                /\ eqb p (parseFloat pct) = true).
Proof.
  intros Hd Hq Hpct Hmark Hc _ _ Hr.
  destruct (positive_is_number _ Hr) as [Hnan Hnz].
  assert (Hh : contributes quotes h = true).
  { unfold contributes. rewrite Hq, Hpct, Hc. fold (weightOf h). rewrite Hnan.
    apply String.eqb_neq in Hmark. now rewrite Hmark. }
  assert (Hw : weightSum quotes [h] = weightOf h).
  { unfold weightSum, sum. cbn [List.filter]. rewrite Hh. cbn [List.map fold_left].
    now apply add_zero_positive. }
  assert (Hwc : weightedChangeSum quotes [h] = add zero (mul (weightOf h) (parseFloat pct))).
  { unfold weightedChangeSum, sum. cbn [List.filter]. rewrite Hh. cbn [List.map fold_left].
    unfold changeOf. now rewrite Hq, Hpct. }
  assert (Hp : estimatedChangePct (estimate (Some d) quotes (Some e)) =
               Some (div (add zero (mul (weightOf h) (parseFloat pct))) (weightOf h))).
  { rewrite estimate_weighted; rewrite Hd, Hw; [|exact Hnz]. now rewrite Hwc. }
  split; [exact Hp|].
  intros Hfull Hvalid. eexists. split; [exact Hp|].
  unfold weightOf. rewrite Hfull. change (div hundred hundred) with one.
  now apply through_one.
Qed.

Lemma single_holding_change_witness :
  exists p,
    estimatedChangePct
      (estimate (Some (detailOf fullWeight)) oddQuote (Some (estimateOf "2.5"))) = Some p
    /\ eqb p (parseFloat "1.23") = true.
Proof.
  apply (proj2 (single_holding_change (detailOf fullWeight) (holding "600519" "100")
                  oddQuote (estimateOf "2.5") (snd (quote "600519" "1.23")) "1.23"
                  eq_refl eq_refl eq_refl ltac:(discriminate) eq_refl eq_refl eq_refl
                  eq_refl));
    vm_compute; reflexivity.
Defined.

(** C5 as stated fails: for the single weight 10 and the change 3 the
    estimated change is 3.0000000000000004. *)
Lemma ten_percent_weight_does_not_cancel :
  ltb zero (parseFloat "10") = true
  /\ leb (parseFloat "10") hundred = true
  /\ estimatedChangePct
       (estimate (Some (detailOf tenPercent)) oneQuote (Some (estimateOf "2.5"))) =
       Some (parseFloat "3.0000000000000004")
  /\ eqb (parseFloat "3.0000000000000004") (parseFloat "3") = false.
Proof. evaluate. Qed.

(** For the weight 8.42 and the change 1.23 the weight cancels. *)
Example odd_weight_cancels :
  estimatedChangePct
    (estimate (Some (detailOf oddWeight)) oddQuote (Some (estimateOf "2.5"))) =
    Some (parseFloat "1.23").
Proof. vm_compute. reflexivity. Qed.

(** A suspended instrument is left out, which is not the same as counting
    it with a change of zero. *)
Example suspended_is_not_zero_change :
  estimate (Some (detailOf withSuspended)) suspendedQuotes (Some (estimateOf "2.5")) =
    estimate (Some (detailOf twoHoldings)) twoQuotes (Some (estimateOf "2.5"))
  /\ estimate (Some (detailOf withSuspended))
       (quotesOf [quote "600519" "1.0"; quote "300750" "0"; quote "000001" "-2.0"])
       (Some (estimateOf "2.5")) <>
     estimate (Some (detailOf withSuspended)) suspendedQuotes (Some (estimateOf "2.5")).
Proof. evaluate. Qed.
End EstimatorClaims.

Module FeederClaims.
Import Types JsNumber Feeder NumberFacts Examples.


Section Weight.
Variables (f : Feed) (stocks : list HoldingStock) (bonds : list BondHolding).




End Weight.





(** The cash weight is 5 when the latest point is missing, zero or empty. *)
Example cash_defaults_to_five :
  parseFloatOr JNull "5" = ofZ 5
  /\ parseFloatOr (JNum zero) "5" = ofZ 5
  /\ parseFloatOr (JStr "") "5" = ofZ 5
  /\ parseFloatOr (JNum (parseFloat "6.8")) "5" = parseFloat "6.8".
Proof. evaluate. Qed.

(** With a latest cash weight of 7.2 and known holdings of 30 the
    appended weight is 62.80. *)
Example cash_series_weight :
  withEtfFeeder plainToString
    (feederCash [JNum (parseFloat "6.81"); JNum (parseFloat "7.2")]) thirty [] =
    thirty ++ [{| stockCode := "510300";
                  stockName := "ETF300 (主要联接标的)";
                  ratio := "62.80" |}].
Proof. evaluate. Qed.

(** A ratio that does not parse is neither used nor replaced: nothing is
    appended. *)
Example unparsable_ratio_appends_nothing :
  withEtfFeeder plainToString (feederPrecise "n/a") thirty [] = thirty.
Proof. evaluate. Qed.
End FeederClaims.

(* ===================================================================== *)
(** ** Properties of the classifier and of the trading-time gate *)
(* ===================================================================== *)

Module MarketClaims.
Import Types Market.

Lemma symbol_truthy c : truthy (quoteSymbol c) = known c.
Proof. unfold quoteSymbol, known. now destruct (getStockMarket c). Qed.

Lemma querySymbols_known codes :
  querySymbols codes = List.map quoteSymbol (List.filter known codes).
Proof.
  unfold querySymbols. induction codes as [|c codes IH]; [reflexivity|].
  cbn. rewrite symbol_truthy, IH. now destruct (known c).
Qed.

Lemma filter_known_twice codes :
  List.filter known (List.filter known codes) = List.filter known codes.
Proof.
  induction codes as [|c codes IH]; [reflexivity|]. cbn.
  destruct (known c) eqn:Hc; [cbn; now rewrite Hc, IH | exact IH].
Qed.

Lemma query_known codes : query codes = query (List.filter known codes).
Proof. unfold query. now rewrite !querySymbols_known, filter_known_twice. Qed.

Lemma quoteRequest_known codes :
  quoteRequest codes = quoteRequest (List.filter known codes).
Proof.
  unfold quoteRequest.
  destruct (List.filter known codes) as [|k ks] eqn:Hk.
  - destruct codes as [|c codes]; [reflexivity|].
    rewrite query_known, Hk. reflexivity.
  - destruct codes as [|c codes]; [discriminate|].
    now rewrite query_known, Hk.
Qed.

(** C7.  Codes of five characters are Hong Kong; other codes starting with
    6 or 5 are Shanghai; other codes starting with 0, 3, 15, 16, 2, 8 or 4
    are Shenzhen; every other code is unknown.  The symbols of a quote
    request are those of the codes with a known market, in order, and the
    request is the one for these codes alone. *)
Theorem stock_market_classification :
  (forall code, String.length code = 5%nat -> getStockMarket code = HK)
  /\ (forall code, String.length code <> 5%nat ->
        startsWith code "6" || startsWith code "5" = true ->
        getStockMarket code = SH)
  /\ (forall code, String.length code <> 5%nat ->
        startsWith code "6" || startsWith code "5" = false ->
        startsWith code "0" || startsWith code "3" || startsWith code "15"
        || startsWith code "16" || startsWith code "2" || startsWith code "8"
        || startsWith code "4" = true ->
        getStockMarket code = SZ)
  /\ (forall code, String.length code <> 5%nat ->
        startsWith code "6" || startsWith code "5" = false ->
        startsWith code "0" || startsWith code "3" || startsWith code "15"
        || startsWith code "16" || startsWith code "2" || startsWith code "8"
        || startsWith code "4" = false ->
        getStockMarket code = unknown)
  /\ (forall codes,
        querySymbols codes = List.map quoteSymbol (List.filter known codes)
        /\ quoteRequest codes = quoteRequest (List.filter known codes))
  /\ getStockMarket "600519" = SH
  /\ getStockMarket "000001" = SZ
  /\ getStockMarket "00700" = HK
  /\ getStockMarket "999999" = unknown
  /\ quoteRequest ["600519"; "999999"; "00700"] =
       Some "https://qt.gtimg.cn/q=sh600519,hk00700"
  /\ quoteRequest ["999999"] = None.
Proof.
  repeat split; try reflexivity.
  - intros code Hlen. unfold getStockMarket.
    destruct code as [|c code]; [discriminate|]. cbn [truthy String.eqb negb].
    now rewrite Hlen.
  - intros code Hlen Hsh. unfold getStockMarket.
    destruct code as [|c code]; [discriminate|]. cbn [truthy String.eqb negb].
    apply Nat.eqb_neq in Hlen. now rewrite Hlen, Hsh.
  - intros code Hlen Hsh Hsz. unfold getStockMarket.
    destruct code as [|c code]; [discriminate|]. cbn [truthy String.eqb negb].
    apply Nat.eqb_neq in Hlen. now rewrite Hlen, Hsh, Hsz.
  - intros code Hlen Hsh Hsz. unfold getStockMarket.
    destruct code as [|c code]; [reflexivity|]. cbn [truthy String.eqb negb].
    apply Nat.eqb_neq in Hlen. now rewrite Hlen, Hsh, Hsz.
  - apply querySymbols_known.
  - apply quoteRequest_known.
Qed.

Lemma stock_market_classification_witness : getStockMarket "159915" = SZ.
Proof.
  apply (proj1 (proj2 (proj2 stock_market_classification)) "159915");
    [discriminate | reflexivity | reflexivity].
Defined.
End MarketClaims.

Module TradingClaims.
Import Trading.
Local Open Scope Z_scope.

(** C8.  On a well-formed local time the predicate holds exactly from
    Monday to Friday between 09:00 and 12:00, both included, or from 13:00
    on and before 16:00; on Saturday and Sunday it never holds.  The
    estimated-NAV bar is shown exactly when both figures are there and the
    predicate holds. *)
Theorem trading_time_window (now : LocalTime) :
  wellFormed now ->
  (isTradingTime now = true <->
     1 <= getDay now <= 5
     /\ (9 * 60 <= minuteOfDay now <= 12 * 60
         \/ 13 * 60 <= minuteOfDay now < 16 * 60))
  /\ (getDay now = 0 \/ getDay now = 6 -> isTradingTime now = false)
  /\ (forall r, Estimator.showsEstimatedBar r now = true <->
        (exists n p, Estimator.realTimeEstimatedNav r = Some n
                     /\ Estimator.estimatedChangePct r = Some p)
        /\ isTradingTime now = true).
Proof.
  destruct now as [d h m]. unfold wellFormed, isTradingTime, minuteOfDay.
  cbn [getDay getHours getMinutes]. intros (Hd & Hh & Hm).
  split; [|split].
  - destruct (Z.eqb_spec d 0), (Z.eqb_spec d 6); cbn [orb];
      try (split; [discriminate | lia]).
    destruct (Z.leb_spec 900 (h * 100 + m)), (Z.leb_spec (h * 100 + m) 1200);
      cbn [andb]; try (split; [lia | reflexivity]);
      destruct (Z.leb_spec 1300 (h * 100 + m)), (Z.ltb_spec (h * 100 + m) 1600);
      cbn [andb]; split; (lia || discriminate || reflexivity).
  - intros [-> | ->]; reflexivity.
  - intros r. unfold Estimator.showsEstimatedBar.
    destruct (Estimator.realTimeEstimatedNav r) as [n|],
             (Estimator.estimatedChangePct r) as [p|]; split;
      try discriminate; try (intros [(n' & p' & Hn & Hp) _]; discriminate).
    + intros H. split; [now exists n, p | exact H].
    + now intros [_ H].
Qed.

Lemma trading_time_window_witness :
  isTradingTime {| getDay := 3; getHours := 12; getMinutes := 0 |} = true.
Proof.
  apply (proj1 (trading_time_window {| getDay := 3; getHours := 12; getMinutes := 0 |}
                  ltac:(unfold wellFormed; cbn; lia))).
  unfold minuteOfDay. cbn. lia.
Defined.
End TradingClaims.

(* ===================================================================== *)
(** ** Properties of the watchlist store *)
(* ===================================================================== *)

Module StoreFacts.
Import Types Store.

Lemma find_code_none c fs :
  List.find (hasCode c) fs = None <-> ~ List.In c (List.map code fs).
Proof.
  induction fs as [|f fs IH]; cbn; [tauto|].
  unfold hasCode at 1. destruct (String.eqb_spec (code f) c) as [Heq|Hne].
  - split; [discriminate | intros H; exfalso; apply H; now left].
  - rewrite IH. tauto.
Qed.

Lemma NoDup_snoc {A} (l : list A) x : List.NoDup l -> ~ List.In x l -> List.NoDup (l ++ [x]).
Proof.
  induction 1 as [|y l Hy Hl IH]; cbn; intros Hx.
  - constructor; [tauto | constructor].
  - constructor.
    + rewrite in_app_iff. cbn. intros [H | [H | []]]; [tauto | subst; tauto].
    + apply IH. tauto.
Qed.

Lemma In_codes_filter (p : MyFund -> bool) fs c :
  List.In c (List.map code (List.filter p fs)) -> List.In c (List.map code fs).
Proof.
  rewrite !in_map_iff. intros (f & Hc & Hf). apply List.filter_In in Hf as [Hf _].
  now exists f.
Qed.

Lemma NoDup_codes_filter (p : MyFund -> bool) fs :
  List.NoDup (List.map code fs) -> List.NoDup (List.map code (List.filter p fs)).
Proof.
  induction fs as [|f fs IH]; cbn; [constructor|].
  intros Hnd. apply List.NoDup_cons_iff in Hnd as [Hf Hfs].
  destruct (p f); [|now apply IH]. cbn. constructor; [|now apply IH].
  intros Hin. apply Hf. now apply In_codes_filter in Hin.
Qed.

(** Every action keeps the codes of the list pairwise distinct. *)
Lemma step_keeps_distinct w a : List.NoDup (codes w) -> List.NoDup (codes (step w a)).
Proof.
  unfold codes. destruct a as [fund now|c|c|c e|c d|c l|c l]; cbn; try easy.
  - unfold addFund.
    destruct (List.find (hasCode (newCode fund)) (funds (state w))) eqn:Hfind; [easy|].
    cbn. intros Hnd. rewrite List.map_app. apply NoDup_snoc; [exact Hnd|].
    now apply find_code_none.
  - apply NoDup_codes_filter.
Qed.

Lemma run_keeps_distinct actions : forall w,
  List.NoDup (codes w) -> List.NoDup (codes (run w actions)).
Proof.
  induction actions as [|a actions IH]; intros w Hnd; [exact Hnd|].
  cbn. apply IH. now apply step_keeps_distinct.
Qed.

(** The boolean test of [removeFund] selects the entries with another code. *)
Lemma filter_other_codes c fs :
  List.filter (fun f => negb (hasCode c f)) fs = filter (fun f => code f <> c) fs.
Proof.
  induction fs as [|f fs IH]; [reflexivity|].
  rewrite filter_cons, <- IH. cbn [List.filter].
  unfold hasCode at 1.
  destruct (String.eqb_spec (code f) c), (decide (code f <> c));
    first [reflexivity | contradiction].
Qed.
End StoreFacts.

Module StoreClaims.
Import Types Store StoreFacts Examples.

(** C9.  From a list of funds with pairwise distinct codes every sequence
    of actions of the store leads to a list with pairwise distinct codes;
    and [addFund] with a code that is in the list returns the store as it
    is and writes nothing. *)
Theorem fund_code_is_unique_key :
  (forall w actions, List.NoDup (codes w) -> List.NoDup (codes (run w actions)))
  /\ (forall w fund now, List.In (newCode fund) (codes w) -> addFund fund now w = w).
Proof.
  split.
  - intros w actions. apply run_keeps_distinct.
  - intros w fund now Hin. unfold addFund.
    destruct (List.find (hasCode (newCode fund)) (funds (state w))) eqn:Hfind;
      [reflexivity|].
    apply find_code_none in Hfind. contradiction.
Qed.

Lemma fund_code_is_unique_key_witness :
  List.NoDup (codes (run twoFunds
           [AddFund (newFund "110022" "again") 1700000001000;
            AddFund (newFund "161725" "gamma") 1700000002000;
            RemoveFund "000001"]))
  /\ addFund (newFund "110022" "again") 1700000001000 twoFunds = twoFunds.
Proof.
  split.
  - apply (proj1 fund_code_is_unique_key twoFunds).
    repeat constructor; cbn; intuition discriminate.
  - apply (proj2 fund_code_is_unique_key twoFunds).
    cbn. tauto.
Defined.

(** C10.  [removeFund c] keeps exactly the funds whose code is not [c], in
    their order; clears the selection when it was [c] and leaves it
    otherwise; leaves the four maps as they are; and writes the new list. *)
Theorem removeFund_frame (w : World) (c : string) :
  funds (state (removeFund c w)) = filter (fun f => code f <> c) (funds (state w))
  /\ sublist (funds (state (removeFund c w))) (funds (state w))
  /\ (forall f, List.In f (funds (state (removeFund c w))) <->
                List.In f (funds (state w)) /\ code f <> c)
  /\ (selectedCode (state w) = Some c -> selectedCode (state (removeFund c w)) = None)
  /\ (selectedCode (state w) <> Some c ->
      selectedCode (state (removeFund c w)) = selectedCode (state w))
  /\ estimates (state (removeFund c w)) = estimates (state w)
  /\ details (state (removeFund c w)) = details (state w)
  /\ loadingEstimate (state (removeFund c w)) = loadingEstimate (state w)
  /\ loadingDetail (state (removeFund c w)) = loadingDetail (state w)
  /\ saved (removeFund c w) = funds (state (removeFund c w)) :: saved w.
Proof.
  cbn [removeFund state funds selectedCode estimates details loadingEstimate
       loadingDetail saved].
  split; [apply filter_other_codes|].
  split; [rewrite filter_other_codes; apply sublist_filter|].
  split; [|split; [|split; [|repeat split]]].
  - intros f. rewrite List.filter_In. unfold hasCode.
    destruct (String.eqb_spec (code f) c); cbn [negb]; intuition congruence.
  - intros ->. now rewrite String.eqb_refl.
  - intros Hsel. destruct (selectedCode (state w)) as [s|]; [|reflexivity].
    destruct (String.eqb_spec s c); [congruence | reflexivity].
Qed.

Example removeFund_twoFunds :
  codes (removeFund "000001" twoFunds) = ["110022"]
  /\ selectedCode (state (removeFund "000001" twoFunds)) = None
  /\ selectedCode (state (removeFund "110022" twoFunds)) = Some "000001".
Proof. repeat split. Qed.
End StoreClaims.

(* ===================================================================== *)
(** ** The store over sequences of actions *)
(* ===================================================================== *)

Module StoreRuns.
Import Types Store StoreFacts StoreHistory Examples.

Lemma run_snoc w actions a : run w (actions ++ [a]) = step (run w actions) a.
Proof. unfold run. rewrite fold_left_app. reflexivity. Qed.



Lemma lastEstimate_snoc c actions a :
  lastEstimate c (actions ++ [a])
  = match a with
    | SetEstimate c' e => if String.eqb c' c then Some e else lastEstimate c actions
    | _ => lastEstimate c actions
    end.
Proof. unfold lastEstimate. rewrite fold_left_app. reflexivity. Qed.

Lemma lastDetail_snoc c actions a :
  lastDetail c (actions ++ [a])
  = match a with
    | SetDetail c' d => if String.eqb c' c then Some d else lastDetail c actions
    | _ => lastDetail c actions
    end.
Proof. unfold lastDetail. rewrite fold_left_app. reflexivity. Qed.

(** X2.  The estimate cached for a code after a sequence of actions is the
    one of the latest [setEstimate] for that code, and the cached one from
    before when there was none; likewise the detail and [setDetail].  No
    action, [removeFund] included, drops an entry of the two caches. *)
Theorem cache_holds_latest (w : World) (actions : list Action) (c : string) :
  estimates (state (run w actions)) !! c
  = match lastEstimate c actions with
    | Some e => Some e
    | None => estimates (state w) !! c
    end
  /\ details (state (run w actions)) !! c
     = match lastDetail c actions with
       | Some d => Some d
       | None => details (state w) !! c
       end.
Proof.
  induction actions as [|a actions [IHe IHd]] using rev_ind; [split; reflexivity|].
  rewrite run_snoc, lastEstimate_snoc, lastDetail_snoc.
  destruct a as [fund now|c'|c'|c' e|c' d|c' l|c' l]; cbn;
    try (split; assumption).
  - unfold addFund.
    destruct (List.find (hasCode (newCode fund)) (funds (state (run w actions))));
      split; assumption.
  - split; [|assumption].
    destruct (String.eqb_spec c' c) as [->|Hne].
    + apply lookup_insert_eq.
    + rewrite lookup_insert_ne by exact Hne. assumption.
  - split; [assumption|].
    destruct (String.eqb_spec c' c) as [->|Hne].
    + apply lookup_insert_eq.
    + rewrite lookup_insert_ne by exact Hne. assumption.
Qed.

Lemma filter_absent c fs :
  List.find (hasCode c) fs = None ->
  List.filter (fun f => negb (hasCode c f)) fs = fs.
Proof.
  induction fs as [|f fs IH]; cbn; [reflexivity|].
  destruct (hasCode c f); [discriminate|].
  intros H. cbn. now rewrite IH.
Qed.

(** X3.  Removing a fund right after it was added, its code not in the
    list before, gives back the list of before, and that list is the one
    written last. *)
Theorem add_then_remove (w : World) (fund : NewFund) (now : Z) :
  List.find (hasCode (newCode fund)) (funds (state w)) = None ->
  let w' := removeFund (newCode fund) (addFund fund now w) in
  funds (state w') = funds (state w)
  /\ exists earlier, saved w' = funds (state w) :: earlier.
Proof.
  intros Hnone. unfold addFund. rewrite Hnone. cbn.
  rewrite List.filter_app, (filter_absent _ _ Hnone).
  assert (Hnew : hasCode (newCode fund) (withAddedAt fund now) = true)
    by (unfold hasCode, withAddedAt; cbn; apply String.eqb_refl).
  cbn [List.filter]. rewrite Hnew. cbn [negb]. rewrite app_nil_r.
  split; [reflexivity | eexists; reflexivity].
Qed.

Lemma add_then_remove_witness :
  funds (state (removeFund "161725" (addFund (newFund "161725" "gamma") 1700000001000 twoFunds)))
  = funds (state twoFunds).
Proof.
  apply (add_then_remove twoFunds (newFund "161725" "gamma") 1700000001000).
  reflexivity.
Defined.

Lemma In_codes_kept c c' fs :
  c <> c' -> List.In c (List.map code fs) ->
  List.In c (List.map code (List.filter (fun f => negb (hasCode c' f)) fs)).
Proof.
  intros Hne. rewrite !in_map_iff. intros (f & Hc & Hf).
  exists f. split; [exact Hc|]. apply List.filter_In. split; [exact Hf|].
  unfold hasCode. destruct (String.eqb_spec (code f) c'); [congruence | reflexivity].
Qed.

Lemma step_keeps_selection w a :
  selectionListed w ->
  match a with SelectFund c => List.In c (codes w) | _ => True end ->
  selectionListed (step w a).
Proof.
  unfold selectionListed, codes.
  destruct a as [fund now|c|c|c e|c d|c l|c l]; cbn; try (intros H _; exact H).
  - unfold addFund.
    destruct (List.find (hasCode (newCode fund)) (funds (state w)));
      intros H _; [exact H|]. cbn.
    destruct (selectedCode (state w)) as [s|]; [|exact I].
    rewrite List.map_app, in_app_iff. now left.
  - intros H _. destruct (selectedCode (state w)) as [s|]; [|exact I].
    destruct (String.eqb_spec s c) as [->|Hne]; [exact I|].
    now apply In_codes_kept.
  - intros _ H. exact H.
Qed.

(** X4.  When [selectFund] is only called on codes of funds in the list,
    the selected code is at any time the code of a fund in the list or
    absent: [removeFund] clears the selection of the fund it removes. *)
Theorem selection_stays_listed (actions : list Action) : forall w : World,
  selectionListed w -> selectsListed w actions ->
  selectionListed (run w actions).
Proof.
  induction actions as [|a actions IH]; intros w Hsel Hcalls; [exact Hsel|].
  destruct Hcalls as [Ha Hrest]. cbn. apply IH; [|exact Hrest].
  now apply step_keeps_selection.
Qed.

Lemma selection_stays_listed_witness :
  selectionListed
    (run twoFunds [SelectFund "110022"; RemoveFund "110022"; RemoveFund "000001"]).
Proof.
  apply (selection_stays_listed
           [SelectFund "110022"; RemoveFund "110022"; RemoveFund "000001"] twoFunds).
  - cbn. now left.
  - cbn. repeat split. right. now left.
Defined.
End StoreRuns.

(* ===================================================================== *)
(** ** The jump links *)
(* ===================================================================== *)

Module JumpUrlFacts.
Import Types Market JumpUrl MoreExamples.

(** X5.  The xueqiu link of a code is the address of the site followed by
    the upper-case market prefix (none for a code of unknown market) and
    the code as it is: the branch for Hong Kong codes and its upper-case
    test never change the link. *)
Theorem xueqiu_link_is_prefix_and_code (toUpperCase : string -> string)
    (stockCode : string) :
  getStockJumpUrl toUpperCase stockCode xueqiu
  = String.append "https://xueqiu.com/S/"
      (String.append (marketPrefix (getStockMarket stockCode)) stockCode).
Proof.
  unfold getStockJumpUrl.
  destruct (getStockMarket stockCode); cbn [isHK andb]; try reflexivity.
  cbn. destruct (startsWith (toUpperCase stockCode) "HK"); reflexivity.
Qed.

Lemma stripLeadingZeros_spec s :
  exists n, s = String.append (zeros n) (stripLeadingZeros s)
            /\ startsWith (stripLeadingZeros s) "0" = false.
Proof.
  induction s as [|c r (n & Hr & Hz)].
  - exists 0%nat. split; reflexivity.
  - cbn [stripLeadingZeros]. destruct (Ascii.eqb_spec c "0") as [->|Hne].
    + exists (S n). split; [|exact Hz].
      rewrite Hr at 1. reflexivity.
    + exists 0%nat. split; [reflexivity|].
      change (startsWith (String c r) "0")
        with (if ascii_dec "0"%char c then String.prefix "" r else false).
      destruct (ascii_dec "0" c) as [Heq|_]; [|reflexivity].
      now subst.
Qed.

(** X6.  The tonghuashun link of a Hong Kong code is the address of the
    site, [HK] and the code without its leading zeros: only zeros at the
    head are dropped, and what follows [HK] does not begin with a zero. *)
Theorem tonghuashun_drops_leading_zeros (toUpperCase : string -> string)
    (stockCode : string) :
  getStockMarket stockCode = HK ->
  exists n rest,
    stockCode = String.append (zeros n) rest
    /\ startsWith rest "0" = false
    /\ getStockJumpUrl toUpperCase stockCode tonghuashun
       = String.append "https://stockpage.10jqka.com.cn/HK" (String.append rest "/").
Proof.
  intros Hhk. destruct (stripLeadingZeros_spec stockCode) as (n & Hcode & Hz).
  exists n, (stripLeadingZeros stockCode). repeat split; [exact Hcode | exact Hz |].
  unfold getStockJumpUrl. rewrite Hhk. reflexivity.
Qed.

Lemma tonghuashun_drops_leading_zeros_witness :
  exists n rest,
    "00700" = String.append (zeros n) rest
    /\ startsWith rest "0" = false
    /\ getStockJumpUrl upperCase "00700" tonghuashun
       = String.append "https://stockpage.10jqka.com.cn/HK" (String.append rest "/").
Proof.
  apply (tonghuashun_drops_leading_zeros upperCase "00700"). reflexivity.
Defined.
End JumpUrlFacts.

(* ===================================================================== *)
(** ** The change cells *)
(* ===================================================================== *)

Module FormatFacts.
Import JsNumber Format.

Lemma parseFloat_empty : parseFloat "" = NaN.
Proof. vm_compute. reflexivity. Qed.

(** X7.  On a string the detail panel and the list format a change alike:
    [formatChange] agrees with [formatChangeRate], the empty string
    included. *)
Theorem formatChange_agrees_with_list (NumberToString : number -> string)
    (val : string) :
  formatChange NumberToString (Some val) = formatChangeRate NumberToString val.
Proof.
  unfold formatChange, formatChangeRate, truthy.
  destruct (String.eqb_spec val "") as [->|_]; cbn [negb]; [|reflexivity].
  rewrite parseFloat_empty. reflexivity.
Qed.

(** X8.  A formatted change has one of four shapes, by the sign of the
    number read and not of the rounded text: dashes without a class when
    the string does not begin with a number; class [up] and a text that
    begins with a plus sign for a number above zero; class [down] and a
    text that begins with a minus sign for a number below zero (minus
    infinity is printed as the language prints it); class [flat] and the
    text [0.00%] for either zero. *)
Theorem change_view_follows_sign (NumberToString : number -> string)
    (rate : string) :
  let num := parseFloat rate in
  let v := formatChangeRate NumberToString rate in
  (isNaN num = true /\ v = {| text := "--"; cls := "" |})
  \/ (gtb num zero = true /\ cls v = "up"
      /\ exists t, text v = String "+"%char t)
  \/ (ltb num zero = true /\ cls v = "down"
      /\ (num = S754_infinity true \/ exists t, text v = String "-"%char t))
  \/ (eqb num zero = true /\ v = {| text := "0.00%"; cls := "flat" |}).
Proof.
  cbv zeta. unfold formatChangeRate.
  destruct (parseFloat rate) as [z| [|] | |[|] m e].
  - right. right. right. destruct z; split; reflexivity.
  - right. right. left. repeat split. now left.
  - right. left. repeat split. eexists. reflexivity.
  - left. split; reflexivity.
  - right. right. left. repeat split. right.
    unfold toFixed2. cbn [isNaN gtb].
    match goal with |- context [if ?b then String.append "-" _ else _] =>
      destruct b end; eexists; reflexivity.
  - right. left. repeat split. eexists. reflexivity.
Qed.
End FormatFacts.

(* ===================================================================== *)
(** ** The phase named in the trend prompt and the trading-time gate *)
(* ===================================================================== *)

Module PhaseFacts.
Import Trading TrendPrompt.
Local Open Scope Z_scope.



End PhaseFacts.

(* ===================================================================== *)
(** ** Splitting, and the event stream *)
(* ===================================================================== *)

Module SplitFacts.
Import JsString.

Lemma last_app_nonempty {A} (l1 l2 : list A) (d : A) :
  l2 <> [] -> List.last (l1 ++ l2) d = List.last l2 d.
Proof.
  intros Hne. induction l1 as [|a l1 IH]; [reflexivity|].
  cbn [app]. destruct (l1 ++ l2) eqn:Happ; [|exact IH].
  apply app_eq_nil in Happ as [_ ->]. contradiction.
Qed.

Section Split.
Variable sep : ascii.

Lemma split_nonempty s : split sep s <> [].
Proof.
  destruct s as [|c r]; cbn; [discriminate|].
  destruct (Ascii.eqb c sep); [discriminate|].
  destruct (split sep r); discriminate.
Qed.

Lemma split_cons_sep r : split sep (String sep r) = EmptyString :: split sep r.
Proof. cbn. now rewrite Ascii.eqb_refl. Qed.

Lemma split_cons_other c r :
  c <> sep ->
  split sep (String c r)
  = String c (List.hd EmptyString (split sep r)) :: List.tl (split sep r).
Proof.
  intros Hne. cbn. destruct (Ascii.eqb_spec c sep) as [Heq|_]; [contradiction|].
  destruct (split sep r) as [|p ps] eqn:Hs; [|reflexivity].
  now apply split_nonempty in Hs.
Qed.

(** A string without the separator is its only piece. *)
Lemma split_without s :
  ~ List.In sep (list_ascii_of_string s) -> split sep s = [s].
Proof.
  induction s as [|c r IH]; cbn [list_ascii_of_string]; intros Hno; [reflexivity|].
  rewrite split_cons_other by (intros ->; apply Hno; now left).
  rewrite IH by (intros Hin; apply Hno; now right). reflexivity.
Qed.

(** No piece holds the separator. *)
Lemma pieces_without s :
  Forall (fun p => ~ List.In sep (list_ascii_of_string p)) (split sep s).
Proof.
  induction s as [|c r IH].
  - cbn. constructor; [intros [] | constructor].
  - destruct (Ascii.eqb_spec c sep) as [->|Hne].
    + rewrite split_cons_sep. constructor; [intros [] | exact IH].
    + rewrite split_cons_other by exact Hne.
      destruct (split sep r) as [|p ps]; cbn [List.hd List.tl].
      * constructor; [|constructor]. cbn. intros [H|[]]. now subst.
      * apply Forall_cons in IH as [Hp Hps]. constructor; [|exact Hps].
        cbn. intros [H|H]; [now subst | contradiction].
Qed.

Lemma last_without s :
  ~ List.In sep (list_ascii_of_string (List.last (split sep s) EmptyString)).
Proof.
  pose proof (pieces_without s) as Hall.
  pose proof (split_nonempty s) as Hne.
  induction (split sep s) as [|p ps IH]; [contradiction|].
  apply Forall_cons in Hall as [Hp Hps].
  destruct ps as [|q qs]; [exact Hp|].
  change (List.last (p :: q :: qs) EmptyString) with (List.last (q :: qs) EmptyString).
  apply IH; [exact Hps | discriminate].
Qed.

(** The pieces of [s ++ t]: those of [s] but the last, then those of
    the last piece of [s] followed by [t]. *)
Lemma split_app s t :
  split sep (String.append s t)
  = List.removelast (split sep s)
    ++ split sep (String.append (List.last (split sep s) EmptyString) t).
Proof.
  induction s as [|c r IH]; [reflexivity|].
  change (String.append (String c r) t) with (String c (String.append r t)).
  destruct (Ascii.eqb_spec c sep) as [->|Hne].
  - rewrite !split_cons_sep, IH.
    pose proof (split_nonempty r) as Hr.
    destruct (split sep r) as [|p ps]; [contradiction|]. reflexivity.
  - rewrite !split_cons_other by exact Hne. rewrite IH.
    pose proof (split_nonempty r) as Hr.
    destruct (split sep r) as [|p ps]; [contradiction|].
    destruct ps as [|q qs].
    + cbn [List.removelast List.last List.hd List.tl app].
      change (String.append (String c p) t) with (String c (String.append p t)).
      rewrite split_cons_other by exact Hne. reflexivity.
    + reflexivity.
Qed.

Lemma removelast_split_app s t :
  List.removelast (split sep (String.append s t))
  = List.removelast (split sep s)
    ++ List.removelast
         (split sep (String.append (List.last (split sep s) EmptyString) t)).
Proof.
  rewrite split_app. apply List.removelast_app, split_nonempty.
Qed.

Lemma last_split_app s t :
  List.last (split sep (String.append s t)) EmptyString
  = List.last (split sep (String.append (List.last (split sep s) EmptyString) t))
      EmptyString.
Proof.
  rewrite split_app. apply last_app_nonempty, split_nonempty.
Qed.
End Split.

Lemma append_empty_r s : String.append s EmptyString = s.
Proof.
  induction s as [|c r IH]; [reflexivity|].
  change (String c (String.append r EmptyString) = String c r). now rewrite IH.
Qed.

Lemma append_assoc s t u :
  String.append (String.append s t) u = String.append s (String.append t u).
Proof.
  induction s as [|c r IH]; [reflexivity|].
  change (String c (String.append (String.append r t) u)
          = String c (String.append r (String.append t u))).
  now rewrite IH.
Qed.

Lemma list_ascii_append s t :
  list_ascii_of_string (String.append s t)
  = list_ascii_of_string s ++ list_ascii_of_string t.
Proof.
  induction s as [|c r IH]; [reflexivity|].
  change (c :: list_ascii_of_string (String.append r t)
          = c :: (list_ascii_of_string r ++ list_ascii_of_string t)).
  now rewrite IH.
Qed.
End SplitFacts.

Module SseFacts.
Import JsString Sse SplitFacts MoreExamples.

Section Stream.
Variable contentOf : string -> option string.

Lemma readLines_app l1 l2 msgs :
  readLines contentOf (l1 ++ l2) msgs
  = if fst (readLines contentOf l1 msgs) then readLines contentOf l1 msgs
    else readLines contentOf l2 (snd (readLines contentOf l1 msgs)).
Proof.
  revert msgs. induction l1 as [|line l1 IH]; intros msgs; [reflexivity|].
  cbn [app readLines].
  destruct (Market.startsWith (trim line) "data: "); [|apply IH].
  destruct (String.eqb (sliceFrom 6 (trim line)) "[DONE]"); [reflexivity|].
  destruct (contentOf (sliceFrom 6 (trim line))); apply IH.
Qed.

(** The messages delivered from a state on are those of the complete
    lines of the buffered text followed by all the chunks. *)
Lemma readAll_whole chunks : forall st,
  done st = false -> noLineFeed (sseBuffer st) ->
  delivered (readAll contentOf chunks st)
  = snd (readLines contentOf
           (List.removelast
              (split lineFeed (String.append (sseBuffer st) (wholeText chunks))))
           (delivered st)).
Proof.
  induction chunks as [|value rest IH]; intros st Hdone Hbuf.
  - cbn [readAll wholeText fold_right]. rewrite append_empty_r.
    rewrite (split_without lineFeed _ Hbuf). reflexivity.
  - cbn [readAll wholeText fold_right]. fold (wholeText rest).
    rewrite <- append_assoc, removelast_split_app, readLines_app.
    unfold onChunk at 1. cbn [done]. fold lineFeed.
    destruct (fst (readLines contentOf
                     (List.removelast
                        (split lineFeed (String.append (sseBuffer st) value)))
                     (delivered st))) eqn:Hd.
    + reflexivity.
    + rewrite IH.
      * reflexivity.
      * cbn. fold lineFeed. exact Hd.
      * cbn. apply last_without.
Qed.

Lemma streamMessages_whole chunks :
  streamMessages contentOf chunks
  = snd (readLines contentOf
           (List.removelast (split lineFeed (wholeText chunks))) []).
Proof.
  unfold streamMessages. rewrite readAll_whole; [reflexivity | reflexivity |].
  intros [].
Qed.

(** X10.  What the stream delivers does not depend on how the text is
    cut into chunks: the messages are those of the whole text read as
    one chunk. *)
Theorem stream_ignores_chunking (chunks : list string) :
  streamMessages contentOf chunks
  = streamMessages contentOf [wholeText chunks].
Proof.
  rewrite !streamMessages_whole. cbn [wholeText fold_right].
  now rewrite append_empty_r.
Qed.

Lemma wholeText_app l1 l2 :
  wholeText (l1 ++ l2) = String.append (wholeText l1) (wholeText l2).
Proof.
  induction l1 as [|c l1 IH]; cbn; [reflexivity|].
  fold (wholeText (l1 ++ l2)). fold (wholeText l1).
  now rewrite IH, append_assoc.
Qed.

(** X11.  Text behind the last line feed of the stream is never
    delivered: a last chunk without a line feed adds no message, so a
    data line that ends the stream unterminated is lost. *)
Theorem unterminated_tail_is_dropped (chunks : list string) (tail : string) :
  noLineFeed tail ->
  streamMessages contentOf (chunks ++ [tail])
  = streamMessages contentOf chunks.
Proof.
  intros Htail. rewrite !streamMessages_whole, wholeText_app.
  cbn [wholeText fold_right]. rewrite append_empty_r.
  rewrite removelast_split_app.
  rewrite (split_without lineFeed
             (String.append (List.last (split lineFeed (wholeText chunks)) EmptyString) tail)).
  - cbn [List.removelast]. now rewrite app_nil_r.
  - rewrite list_ascii_append, in_app_iff.
    intros [H|H]; [now apply (last_without lineFeed (wholeText chunks)) | now apply Htail].
Qed.
End Stream.

Lemma unterminated_tail_is_dropped_witness :
  streamMessages plainContent [String.append "data: a" newline; "data: b"]
  = streamMessages plainContent [String.append "data: a" newline].
Proof.
  apply (unterminated_tail_is_dropped plainContent
           [String.append "data: a" newline] "data: b").
  unfold noLineFeed. cbn. intros H.
  repeat (destruct H as [H|H]; [discriminate H|]). exact H.
Defined.
End SseFacts.

(* ===================================================================== *)
(** ** The quotes read from the response *)
(* ===================================================================== *)

Module QuoteFacts.
Import Types Market JsString Quotes SplitFacts MoreExamples.

Lemma strip_symbol c : known c = true -> stripExchangePrefix (quoteSymbol c) = c.
Proof.
  unfold known, quoteSymbol.
  destruct (getStockMarket c); [reflexivity | reflexivity | reflexivity | discriminate].
Qed.

(** X12.  The key of a response line leads back to the code of the
    request: removing the exchange prefix from the symbol of a code of a
    known market gives the code, also when the code itself begins with
    the letters of a prefix. *)
Theorem symbol_prefix_round_trip (c : string) :
  known c = true -> stripExchangePrefix (quoteSymbol c) = c.
Proof.
  unfold known, quoteSymbol. intros Hknown.
  destruct (getStockMarket c) eqn:Hmarket.
  - reflexivity.
  - reflexivity.
  - reflexivity.
  - discriminate Hknown.
Qed.

Lemma symbol_prefix_round_trip_witness :
  stripExchangePrefix (quoteSymbol "hk123") = "hk123".
Proof. apply (symbol_prefix_round_trip "hk123"). reflexivity. Defined.

Lemma readLine_keyed quotes line :
  (forall k q, quotes !! k = Some q -> quoteCode q = k /\ is_Some (changePct q)) ->
  forall k q, readLine quotes line !! k = Some q ->
              quoteCode q = k /\ is_Some (changePct q).
Proof.
  intros Hm. unfold readLine.
  destruct (String.eqb (trim line) ""); [exact Hm|].
  destruct (matchQuote line) as [[codeWithPrefix body]|]; [|exact Hm].
  destruct (32 <? List.length (split "~" body))%nat eqn:Hlen; [|exact Hm].
  destruct (String.eqb (stripExchangePrefix codeWithPrefix) "__proto__"); [exact Hm|].
  intros k q. rewrite lookup_insert_Some.
  intros [[<- <-] | [_ Hq]]; [|now apply Hm].
  cbn [quoteCode changePct]. split; [reflexivity|]. apply Nat.ltb_lt in Hlen.
  destruct (nth_error (split "~" body) 32) eqn:Hnth; [eexists; reflexivity|].
  apply nth_error_None in Hnth. lia.
Qed.

Lemma parseQuotes_keyed text k q :
  parseQuotes text !! k = Some q -> quoteCode q = k /\ is_Some (changePct q).
Proof.
  unfold parseQuotes. revert k q.
  assert (Hempty : forall k q, (∅ : gmap string StockQuote) !! k = Some q ->
                               quoteCode q = k /\ is_Some (changePct q))
    by (intros k q H; rewrite lookup_empty in H; discriminate).
  revert Hempty. generalize (∅ : gmap string StockQuote).
  induction (split ";" text) as [|line lines IH]; intros m Hm; [exact Hm|].
  cbn. apply IH. now apply readLine_keyed.
Qed.

(** X13.  Every quote of the record [getStockQuotes] returns is stored
    under its own code and has a change in percent, whatever the response
    was: a quote that is found passes the test against [undefined]. *)
Theorem quotes_are_keyed_by_code (fetchText : string -> option string)
    (codes : list string) (k : string) (q : StockQuote) :
  getStockQuotes fetchText codes !! k = Some q ->
  quoteCode q = k /\ is_Some (changePct q).
Proof.
  unfold getStockQuotes.
  destruct (quoteRequest codes) as [url|];
    [destruct (fetchText url) as [text|]|];
    try (rewrite lookup_empty; discriminate).
  apply parseQuotes_keyed.
Qed.

Lemma quotes_are_keyed_by_code_witness :
  quoteCode (quoteFrom "600519" fields) = "600519"
  /\ is_Some (changePct (quoteFrom "600519" fields)).
Proof.
  apply (quotes_are_keyed_by_code
           (fun _ => Some (response [("600519", fields)])) ["600519"]).
  vm_compute. reflexivity.
Defined.

Lemma unknown_request codes :
  Forall (fun c => known c = false) codes -> quoteRequest codes = None.
Proof.
  intros Hall. rewrite MarketClaims.quoteRequest_known.
  replace (List.filter known codes) with (@nil string); [reflexivity|].
  induction Hall as [|c codes Hc _ IH]; [reflexivity|]. cbn. now rewrite Hc.
Qed.

(** X14.  A fund whose holdings all have codes of unknown market never
    gets an estimate: no request is made for them, the record of quotes
    stays empty, and the estimator gives the unavailable result whatever
    the interface would answer. *)
Theorem unknown_markets_give_no_estimate (fetchText : string -> option string)
    (d : FundDetail) (est : option FundEstimate) :
  Forall (fun h => known (stockCode h) = false) (holdings d) ->
  getStockQuotes fetchText (List.map stockCode (holdings d)) = ∅
  /\ Estimator.estimate (Some d)
       (getStockQuotes fetchText (List.map stockCode (holdings d))) est
     = Estimator.unavailable.
Proof.
  intros Hall.
  assert (Hq : getStockQuotes fetchText (List.map stockCode (holdings d)) = ∅).
  { unfold getStockQuotes. rewrite unknown_request; [reflexivity|].
    induction Hall; cbn; constructor; assumption. }
  split; [exact Hq|]. rewrite Hq. unfold Estimator.estimate.
  destruct est; [|reflexivity].
  rewrite map_size_empty. cbn [Nat.eqb]. now rewrite orb_true_r.
Qed.

Lemma unknown_markets_give_no_estimate_witness :
  Estimator.estimate (Some (Examples.detailOf foreignHoldings))
    (getStockQuotes (fun _ => Some (response [("600519", fields)]))
       (List.map stockCode (holdings (Examples.detailOf foreignHoldings))))
    (Some (Examples.estimateOf "2.5"))
  = Estimator.unavailable.
Proof.
  apply (unknown_markets_give_no_estimate
           (fun _ => Some (response [("600519", fields)]))
           (Examples.detailOf foreignHoldings) (Some (Examples.estimateOf "2.5"))).
  repeat constructor.
Defined.

(** *** A well-formed response is read back *)

Lemma forallb_weaken {A} (P Q : A -> bool) l :
  (forall a, P a = true -> Q a = true) -> forallb P l = true -> forallb Q l = true.
Proof.
  intros HPQ. induction l as [|a l IH]; [reflexivity|]. cbn.
  rewrite !andb_true_iff. intros [Ha Hl]. split; [now apply HPQ | now apply IH].
Qed.

Lemma forallb_chars_app P s t :
  forallb P (list_ascii_of_string (String.append s t))
  = forallb P (list_ascii_of_string s) && forallb P (list_ascii_of_string t).
Proof. now rewrite list_ascii_append, forallb_app. Qed.

Lemma not_in_chars sep s :
  forallb (fun ch => negb (Ascii.eqb ch sep)) (list_ascii_of_string s) = true ->
  ~ List.In sep (list_ascii_of_string s).
Proof.
  rewrite forallb_forall. intros Hall Hin. specialize (Hall _ Hin).
  now rewrite Ascii.eqb_refl in Hall.
Qed.

Lemma split_sep_after sep a b :
  ~ List.In sep (list_ascii_of_string a) ->
  split sep (String.append a (String sep b)) = a :: split sep b.
Proof.
  induction a as [|c r IH]; intros Hno.
  - apply split_cons_sep.
  - change (String.append (String c r) (String sep b))
      with (String c (String.append r (String sep b))).
    rewrite split_cons_other by (intros ->; apply Hno; now left).
    rewrite IH by (intros Hin; apply Hno; now right). reflexivity.
Qed.

Lemma split_concat fields :
  fields <> [] ->
  forallb (fun f => forallb (fun ch => negb (Ascii.eqb ch "~")) (list_ascii_of_string f))
    fields = true ->
  split "~" (String.concat "~" fields) = fields.
Proof.
  induction fields as [|f fields IH]; [contradiction|]. intros _ Hall.
  cbn [forallb] in Hall. apply andb_true_iff in Hall as [Hf Hrest].
  destruct fields as [|g fields].
  - cbn [String.concat]. apply split_without. now apply not_in_chars.
  - change (String.concat "~" (f :: g :: fields))
      with (String.append f (String "~"%char (String.concat "~" (g :: fields)))).
    rewrite split_sep_after by now apply not_in_chars.
    rewrite IH; [reflexivity | discriminate | exact Hrest].
Qed.

Lemma concat_chars (P : ascii -> bool) fields :
  P "~"%char = true ->
  forallb (fun f => forallb P (list_ascii_of_string f)) fields = true ->
  forallb P (list_ascii_of_string (String.concat "~" fields)) = true.
Proof.
  intros Hsep. induction fields as [|f fields IH]; [reflexivity|].
  cbn [forallb]. rewrite andb_true_iff. intros [Hf Hrest].
  destruct fields as [|g fields]; [exact Hf|].
  change (String.concat "~" (f :: g :: fields))
    with (String.append f (String "~"%char (String.concat "~" (g :: fields)))).
  rewrite forallb_chars_app, Hf. cbn [list_ascii_of_string forallb andb].
  rewrite Hsep. cbn [andb]. now apply IH.
Qed.

Lemma closingQuote_end s : forall pos found,
  forallb (fun ch => negb (isLineTerminator ch)) (list_ascii_of_string s) = true ->
  (1 <= pos + String.length s)%nat ->
  closingQuote (String.append s (String dquote EmptyString)) pos found
  = Some (pos + String.length s)%nat.
Proof.
  induction s as [|c r IH]; intros pos found Hno Hpos.
  - cbn in Hpos. change (String.append EmptyString (String dquote EmptyString))
      with (String dquote EmptyString).
    cbn [closingQuote]. change (isLineTerminator dquote) with false.
    cbn match. rewrite Ascii.eqb_refl. cbn [andb].
    destruct (Nat.leb_spec 1 pos); [|lia]. cbn [String.length]. f_equal. lia.
  - change (String.append (String c r) (String dquote EmptyString))
      with (String c (String.append r (String dquote EmptyString))).
    cbn [list_ascii_of_string forallb] in Hno. apply andb_true_iff in Hno as [Hc Hr].
    cbn [closingQuote]. apply negb_true_iff in Hc. rewrite Hc.
    rewrite IH; [f_equal; cbn; lia | exact Hr | lia].
Qed.

Lemma substring_prefix s t : substring 0 (String.length s) (String.append s t) = s.
Proof.
  induction s as [|c r IH]; [now destruct t|].
  change (String.append (String c r) t) with (String c (String.append r t)).
  cbn. now rewrite IH.
Qed.

Lemma matchBody_quoted body :
  body <> EmptyString ->
  forallb (fun ch => negb (isLineTerminator ch)) (list_ascii_of_string body) = true ->
  matchBody (String.append body (String dquote EmptyString)) = Some body.
Proof.
  intros Hne Hno. unfold matchBody. rewrite closingQuote_end.
  - cbn [Nat.add]. now rewrite substring_prefix.
  - exact Hno.
  - destruct body; [contradiction | cbn; lia].
Qed.

Lemma startsWith_append p s : startsWith (String.append p s) p = true.
Proof.
  unfold startsWith. apply prefix_correct. apply substring_prefix.
Qed.

Lemma lazyKey_symbol body symbol : forall taken,
  symbol <> EmptyString ->
  forallb codeChar (list_ascii_of_string symbol) = true ->
  matchBody (String.append body (String dquote EmptyString)) = Some body ->
  lazyKey taken
    (String.append symbol
       (String.append equalsQuote (String.append body (String dquote EmptyString))))
  = Some (String.append taken symbol, body).
Proof.
  induction symbol as [|c r IH]; intros taken Hne Hchars Hbody; [contradiction|].
  cbn [list_ascii_of_string forallb] in Hchars.
  apply andb_true_iff in Hchars as [Hc Hr].
  unfold codeChar in Hc. rewrite !andb_true_iff, !negb_true_iff in Hc.
  destruct Hc as [[Hlt Heq] Hsemi].
  match goal with |- lazyKey _ (String.append (String c r) ?rest) = _ =>
    change (String.append (String c r) rest) with (String c (String.append r rest))
  end.
  cbn [lazyKey]. rewrite Hlt.
  destruct r as [|d r'].
  - change (String.append EmptyString ?x) with x.
    rewrite startsWith_append.
    change (sliceFrom 2 (String.append equalsQuote
                           (String.append body (String dquote EmptyString))))
      with (String.append body (String dquote EmptyString)).
    now rewrite Hbody.
  - match goal with |- context [startsWith (String.append (String d r') ?rest) _] =>
      change (String.append (String d r') rest) with (String d (String.append r' rest))
    end.
    assert (Hd : d <> "="%char).
    { cbn [list_ascii_of_string forallb] in Hr. apply andb_true_iff in Hr as [Hd _].
      unfold codeChar in Hd. rewrite !andb_true_iff, !negb_true_iff in Hd.
      destruct Hd as [[_ Hd] _]. intros ->. discriminate Hd. }
    match goal with |- context [startsWith (String d ?x) equalsQuote] =>
      change (startsWith (String d x) equalsQuote)
        with (if ascii_dec "="%char d
              then String.prefix (String dquote EmptyString) x else false)
    end.
    destruct (ascii_dec "=" d) as [Heq'|_]; [now subst|].
    transitivity (Some (String.append (String.append taken (String c EmptyString))
                          (String d r'), body)).
    + exact (IH (String.append taken (String c EmptyString))
               ltac:(discriminate) Hr Hbody).
    + now rewrite append_assoc.
Qed.

Lemma matchQuote_here line groups :
  matchAt line = Some groups -> matchQuote line = Some groups.
Proof. intros H. destruct line; cbn [matchQuote]; now rewrite H. Qed.

Lemma matchQuote_padded pad line groups :
  forallb JsNumber.isStrWhiteSpaceChar (list_ascii_of_string pad) = true ->
  matchAt line = Some groups ->
  matchQuote (String.append pad line) = Some groups.
Proof.
  intros Hpad Hat. induction pad as [|p pad IH]; [now apply matchQuote_here|].
  cbn [list_ascii_of_string forallb] in Hpad. apply andb_true_iff in Hpad as [Hp Hrest].
  change (String.append (String p pad) line) with (String p (String.append pad line)).
  cbn [matchQuote]. unfold matchAt at 1.
  change (startsWith (String p (String.append pad line)) "v_")
    with (if ascii_dec "v"%char p
          then String.prefix "_" (String.append pad line) else false).
  destruct (ascii_dec "v" p) as [<-|_]; [discriminate Hp|].
  now apply IH.
Qed.

Lemma trim_blank pad :
  forallb JsNumber.isStrWhiteSpaceChar (list_ascii_of_string pad) = true ->
  trim pad = EmptyString.
Proof.
  unfold trim, trimStart. induction pad as [|p pad IH]; [reflexivity|].
  cbn [list_ascii_of_string forallb]. rewrite andb_true_iff. intros [Hp Hrest].
  cbn [JsNumber.skipWhiteSpace]. rewrite Hp. now apply IH.
Qed.

Lemma trim_line pad rest :
  forallb JsNumber.isStrWhiteSpaceChar (list_ascii_of_string pad) = true ->
  String.eqb (trim (String.append pad (String "v"%char rest))) "" = false.
Proof.
  unfold trim, trimStart. induction pad as [|p pad IH].
  - intros _. change (String.append EmptyString (String "v"%char rest))
      with (String "v"%char rest).
    cbn [JsNumber.skipWhiteSpace].
    change (JsNumber.isStrWhiteSpaceChar "v") with false. cbn match.
    cbn [trimEnd]. change (JsNumber.isStrWhiteSpaceChar "v") with false.
    reflexivity.
  - cbn [list_ascii_of_string forallb]. rewrite andb_true_iff. intros [Hp Hrest].
    change (String.append (String p pad) (String "v"%char rest))
      with (String p (String.append pad (String "v"%char rest))).
    cbn [JsNumber.skipWhiteSpace]. rewrite Hp. now apply IH.
Qed.

Lemma symbol_chars c :
  known c = true ->
  forallb codeChar (list_ascii_of_string c) = true ->
  quoteSymbol c <> EmptyString
  /\ forallb codeChar (list_ascii_of_string (quoteSymbol c)) = true.
Proof.
  unfold known, quoteSymbol. intros Hk Hc.
  destruct (getStockMarket c); try discriminate;
    (split; [discriminate | cbn; exact Hc]).
Qed.

Lemma wellFormedEntry_parts c fields :
  wellFormedEntry (c, fields) = true ->
  known c = true
  /\ forallb codeChar (list_ascii_of_string c) = true
  /\ (32 < List.length fields)%nat
  /\ forallb (fun f => forallb fieldChar (list_ascii_of_string f)) fields = true.
Proof.
  unfold wellFormedEntry. cbn [fst snd]. rewrite !andb_true_iff, Nat.ltb_lt. tauto.
Qed.

Lemma fields_weaken (P : ascii -> bool) fields :
  (forall ch, fieldChar ch = true -> P ch = true) ->
  forallb (fun f => forallb fieldChar (list_ascii_of_string f)) fields = true ->
  forallb (fun f => forallb P (list_ascii_of_string f)) fields = true.
Proof.
  intros HP. apply forallb_weaken. intros f. now apply forallb_weaken.
Qed.

Lemma body_nonempty fields :
  (32 < List.length fields)%nat -> String.concat "~" fields <> EmptyString.
Proof.
  destruct fields as [|f [|g fields]]; cbn [List.length]; try lia. intros _.
  change (String.concat "~" (f :: g :: fields))
    with (String.append f (String "~"%char (String.concat "~" (g :: fields)))).
  destruct f; discriminate.
Qed.

(** The line of a well-formed entry, behind white space, stores the quote
    of the entry under its code. *)
Lemma readLine_entry quotes pad c fields :
  forallb JsNumber.isStrWhiteSpaceChar (list_ascii_of_string pad) = true ->
  wellFormedEntry (c, fields) = true ->
  readLine quotes (String.append pad (quoteLine (quoteSymbol c) fields))
  = <[c := quoteFrom c fields]> quotes.
Proof.
  intros Hpad Hwf.
  apply wellFormedEntry_parts in Hwf as (Hk & Hc & Hlen & Hf).
  destruct (symbol_chars c Hk Hc) as [Hsym Hsymc].
  assert (Hbody : matchBody (String.append (String.concat "~" fields)
                               (String dquote EmptyString))
                  = Some (String.concat "~" fields)).
  { apply matchBody_quoted; [now apply body_nonempty|].
    apply concat_chars; [reflexivity|].
    revert Hf. apply fields_weaken. intros ch. unfold fieldChar.
    rewrite !andb_true_iff. tauto. }
  unfold readLine, quoteLine.
  match goal with |- context [String.append "v_" ?x] => set (rest := x) end.
  change (String.append "v_" rest) with (String "v"%char (String "_"%char rest)).
  rewrite (trim_line pad _ Hpad).
  change (String "v"%char (String "_"%char rest)) with (String.append "v_" rest).
  rewrite (matchQuote_padded pad _ (quoteSymbol c, String.concat "~" fields) Hpad).
  - rewrite (strip_symbol c Hk).
    rewrite split_concat.
    + apply Nat.ltb_lt in Hlen. rewrite Hlen.
      destruct (String.eqb_spec c "__proto__") as [->|_]; [discriminate Hk|].
      reflexivity.
    + intros ->. cbn in Hlen. lia.
    + revert Hf. apply fields_weaken. intros ch. unfold fieldChar.
      rewrite !andb_true_iff. tauto.
  - unfold matchAt. rewrite startsWith_append.
    change (sliceFrom 2 (String.append "v_" rest)) with rest.
    now apply (lazyKey_symbol _ _ EmptyString).
Qed.

Lemma readLine_blank quotes pad :
  forallb JsNumber.isStrWhiteSpaceChar (list_ascii_of_string pad) = true ->
  readLine quotes pad = quotes.
Proof. intros Hpad. unfold readLine. now rewrite (trim_blank pad Hpad). Qed.

Lemma line_without_semicolon pad c fields :
  forallb JsNumber.isStrWhiteSpaceChar (list_ascii_of_string pad) = true ->
  wellFormedEntry (c, fields) = true ->
  ~ List.In ";"%char
      (list_ascii_of_string (String.append pad (quoteLine (quoteSymbol c) fields))).
Proof.
  intros Hpad Hwf.
  apply wellFormedEntry_parts in Hwf as (Hk & Hc & Hlen & Hf).
  destruct (symbol_chars c Hk Hc) as [_ Hsymc].
  apply not_in_chars. unfold quoteLine.
  rewrite !forallb_chars_app, !andb_true_iff. repeat split.
  - revert Hpad. apply forallb_weaken. intros ch Hws.
    destruct (Ascii.eqb_spec ch ";") as [->|_]; [discriminate Hws | reflexivity].
  - revert Hsymc. apply forallb_weaken. intros ch. unfold codeChar.
    rewrite !andb_true_iff. tauto.
  - apply concat_chars; [reflexivity|].
    revert Hf. apply fields_weaken. intros ch. unfold fieldChar.
    rewrite !andb_true_iff. tauto.
Qed.

Lemma whitespace_without_semicolon pad :
  forallb JsNumber.isStrWhiteSpaceChar (list_ascii_of_string pad) = true ->
  ~ List.In ";"%char (list_ascii_of_string pad).
Proof.
  intros Hpad. apply not_in_chars. revert Hpad. apply forallb_weaken. intros ch Hws.
  destruct (Ascii.eqb_spec ch ";") as [->|_]; [discriminate Hws | reflexivity].
Qed.

Lemma read_responseFrom entries : forall pad quotes,
  forallb JsNumber.isStrWhiteSpaceChar (list_ascii_of_string pad) = true ->
  forallb wellFormedEntry entries = true ->
  fold_left readLine (split ";" (responseFrom pad entries)) quotes
  = fold_left (fun m e => <[fst e := quoteFrom (fst e) (snd e)]> m) entries quotes.
Proof.
  induction entries as [|[c fields] entries IH]; intros pad quotes Hpad Hall.
  - cbn [responseFrom fold_left].
    rewrite (split_without _ _ (whitespace_without_semicolon pad Hpad)).
    cbn [fold_left]. now apply readLine_blank.
  - cbn [forallb] in Hall. apply andb_true_iff in Hall as [Hwf Hrest].
    cbn [responseFrom]. rewrite <- append_assoc.
    rewrite split_sep_after by now apply line_without_semicolon.
    cbn [fold_left fst snd]. rewrite readLine_entry by assumption.
    now apply IH.
Qed.

(** X15.  A response that holds, for each requested code in turn, the line
    of its symbol with more than thirty-two fields is read back in full:
    the record has for each code the quote with the fields 3, 31 and 32
    of its line as price, change and change in percent, a later line
    replacing an earlier one of the same code. *)
Theorem response_is_read_back (entries : list (string * list string)) :
  forallb wellFormedEntry entries = true ->
  parseQuotes (response entries) = quotesOfEntries entries.
Proof.
  intros Hall. unfold parseQuotes, response, quotesOfEntries.
  now apply read_responseFrom.
Qed.

Lemma response_is_read_back_witness :
  parseQuotes (response [("600519", fields); ("000001", otherFields)])
  = quotesOfEntries [("600519", fields); ("000001", otherFields)].
Proof.
  apply (response_is_read_back [("600519", fields); ("000001", otherFields)]).
  vm_compute. reflexivity.
Defined.
End QuoteFacts.

(* ===================================================================== *)
(** ** The time of an estimate in the list *)
(* ===================================================================== *)

Module NetWorthFacts.
Import Types JsNumber JsString NetWorth SplitFacts QuoteFacts.

Lemma digits_without_space u :
  forallb notSpace (list_ascii_of_string (NilEmpty.string_of_uint u)) = true.
Proof. induction u; cbn; [reflexivity | exact IHu ..]. Qed.

Lemma decimalDigits_without_space n :
  forallb notSpace (list_ascii_of_string (decimalDigits n)) = true.
Proof.
  unfold decimalDigits, NilZero.string_of_uint.
  destruct (N.to_uint (Z.to_N n)) eqn:Hu; [reflexivity | ..];
    rewrite <- Hu; apply digits_without_space.
Qed.

Lemma ofInteger_without_space n :
  forallb notSpace (list_ascii_of_string (ofInteger n)) = true.
Proof.
  unfold ofInteger. destruct (n <? 0)%Z; [|apply decimalDigits_without_space].
  cbn [list_ascii_of_string forallb]. apply decimalDigits_without_space.
Qed.

Lemma padStart2_without_space s :
  forallb notSpace (list_ascii_of_string s) = true ->
  forallb notSpace (list_ascii_of_string (padStart2 s)) = true.
Proof.
  intros Hs. unfold padStart2. rewrite forallb_chars_app, Hs, andb_true_r.
  destruct (2 - String.length s)%nat as [|[|[|k]]] eqn:Hk; try reflexivity.
  lia.
Qed.

Lemma dateStr_without_space d :
  forallb notSpace (list_ascii_of_string (dateStr d)) = true.
Proof.
  destruct d as [|fullYear month date]; [reflexivity|]. unfold dateStr.
  rewrite !forallb_chars_app, !andb_true_iff. repeat split;
    first [ reflexivity
          | apply ofInteger_without_space
          | apply padStart2_without_space, ofInteger_without_space ].
Qed.

(** X16.  For every estimate [getFundEstimate] returns the list shows the
    label that follows the date, and never the date or a time: the part
    of [gztime] behind its first space is the label of the exact net
    value. *)
Theorem list_shows_label_for_time (NumberToString : number -> string)
    (code fS_name : string) (netWorthTrend : option (list TrendPoint))
    (est : FundEstimate) :
  getFundEstimate NumberToString code fS_name netWorthTrend = Some est ->
  shownTime (Some est) = "(准确净值)".
Proof.
  unfold getFundEstimate. destruct netWorthTrend as [trend|]; [|discriminate].
  destruct (List.last (List.map Some trend) None) as [latest|]; [|discriminate].
  intros [= <-]. unfold shownTime. cbn [gztime].
  change " (准确净值)" with (String " "%char "(准确净值)").
  rewrite split_sep_after.
  - reflexivity.
  - apply not_in_chars, dateStr_without_space.
Qed.

Lemma list_shows_label_for_time_witness :
  shownTime
    (getFundEstimate Examples.plainToString "000001" "alpha"
       (Some [ {| x := LocalDate 2025 11 31; y := one; equityReturn := zero |} ]))
  = "(准确净值)".
Proof.
  apply (list_shows_label_for_time Examples.plainToString "000001" "alpha"
           (Some [ {| x := LocalDate 2025 11 31; y := one; equityReturn := zero |} ])).
  reflexivity.
Defined.
End NetWorthFacts.

(* ===================================================================== *)
(** ** What the dialog adds *)
(* ===================================================================== *)

Module DialogFacts.
Import Types JsNumber JsString Store NetWorth AddFundModal Examples MoreExamples.

Lemma getFundEstimate_code ts c n t e :
  getFundEstimate ts c n t = Some e -> estCode e = c.
Proof.
  unfold getFundEstimate. destruct t as [trend|]; [|discriminate].
  destruct (List.last (List.map Some trend) None); [|discriminate].
  now intros [= <-].
Qed.

Lemma removeOne_vetted c l :
  Forall (fun c => isSixDigits c = true) l ->
  Forall (fun c => isSixDigits c = true) (removeOne c l).
Proof.
  induction 1 as [|x l Hx Hl IH]; cbn; [constructor|].
  destruct (String.eqb x c); [exact Hl | now constructor].
Qed.

Lemma pending_vetted c l :
  Forall (fun c => isSixDigits c = true) l ->
  existsb (String.eqb c) l = true -> isSixDigits c = true.
Proof.
  intros Hall Hin. apply existsb_exists in Hin as (x & Hx & Heq).
  apply String.eqb_eq in Heq as ->. rewrite List.Forall_forall in Hall. now apply Hall.
Qed.

Ltac keep := split; [|split]; assumption.

Section Dialog.
Variable NumberToString : number -> string.
Variable before : list MyFund.

Lemma step_allVetted s e :
  allVetted before s -> allVetted before (step NumberToString s e).
Proof.
  destruct s as [m w]. unfold allVetted. cbn [fst snd].
  intros (Hpend & Hres & Hfunds).
  destruct e as [value|c| |c loaded|now]; cbn [step].
  - cbn [fst snd pending result]. split; [exact Hpend | split; [intros r Hr; discriminate Hr | exact Hfunds]].
  - destruct (existsb (String.eqb c) tips); [|keep].
    destruct (List.find (hasCode c) (funds (state w))); [keep|].
    cbn [fst snd pending result]. split; [exact Hpend | split; [intros r Hr; discriminate Hr | exact Hfunds]].
  - destruct (negb (truthy (trim (inputCode m)))); [keep|].
    destruct (isSixDigits (trim (inputCode m))) eqn:Hsix; cbn [negb];
      [|keep].
    destruct (List.find (hasCode (trim (inputCode m))) (funds (state w)));
      [keep|].
    cbn [fst snd pending result].
    split; [now constructor | split; [intros r Hr; discriminate Hr | exact Hfunds]].
  - destruct (existsb (String.eqb c) (pending m)) eqn:Hin; [|keep].
    pose proof (pending_vetted _ _ Hpend Hin) as Hc.
    pose proof (removeOne_vetted c _ Hpend) as Hrest.
    destruct (match loaded with
              | Some (fS_name, netWorthTrend) =>
                  getFundEstimate NumberToString c fS_name netWorthTrend
              | None => None
              end) as [est|] eqn:Hest; [|keep].
    assert (Hcode : estCode est = c).
    { destruct loaded as [[n t]|]; [|discriminate].
      now apply getFundEstimate_code in Hest. }
    destruct (truthy (estName est)) eqn:Hname; [|keep].
    cbn [fst snd pending result]. split; [exact Hrest|]. split; [|exact Hfunds].
    intros r [= <-]. cbn [resultCode resultName]. split; [now rewrite Hcode|].
    intros Hempty. unfold truthy in Hname. now rewrite Hempty in Hname.
  - destruct (result m) as [r|] eqn:Hr; [|cbn [fst snd]; rewrite Hr; keep].
    cbn [fst snd pending result].
    split; [exact Hpend|]. split; [intros r' Hr'; discriminate Hr'|].
    unfold addFund. cbn [newCode].
    destruct (List.find (hasCode (resultCode r)) (funds (state w))); [exact Hfunds|].
    cbn [state funds]. intros f Hf. apply in_app_iff in Hf as [Hf | [<- | []]].
    + now apply Hfunds.
    + right. cbn. now apply Hres.
Qed.

Lemma run_allVetted events : forall s,
  allVetted before s -> allVetted before (run NumberToString s events).
Proof.
  induction events as [|e events IH]; intros s Hs; [exact Hs|].
  cbn. apply IH. now apply step_allVetted.
Qed.
End Dialog.

(** X17.  Whatever is typed, clicked and answered in the dialog, in any
    order, a fund it puts into the list has a code of exactly six decimal
    digits and a name that is not empty: every fund of the list after the
    events was in the list before them or is such a fund. *)
Theorem dialog_adds_vetted_funds (NumberToString : number -> string)
    (events : list Event) (w : World) (f : MyFund) :
  List.In f (funds (state (snd (run NumberToString (initial, w) events)))) ->
  List.In f (funds (state w))
  \/ (isSixDigits (code f) = true /\ name f <> "").
Proof.
  assert (Hinit : allVetted (funds (state w)) (initial, w)).
  { unfold allVetted. cbn. split; [constructor | split; [intros r Hr; discriminate Hr | now left]]. }
  apply (run_allVetted NumberToString _ events) in Hinit.
  destruct Hinit as (_ & _ & Hfunds). exact (Hfunds f).
Qed.

Lemma dialog_adds_vetted_funds_witness :
  List.In (fund "161725" "gamma" 1700000002000) (funds (state twoFunds))
  \/ (isSixDigits (code (fund "161725" "gamma" 1700000002000)) = true
      /\ name (fund "161725" "gamma" 1700000002000) <> "").
Proof.
  apply (dialog_adds_vetted_funds plainToString searchAndAdd twoFunds).
  vm_compute. right. right. left. reflexivity.
Defined.
End DialogFacts.

(* ===================================================================== *)
(** ** What the estimator reads of the quotes *)
(* ===================================================================== *)

Module EstimatorFrame.
Import Types JsNumber Estimator Examples MoreExamples.

Lemma visit_agree q1 q2 acc h :
  q1 !! stockCode h = q2 !! stockCode h -> visit q1 acc h = visit q2 acc h.
Proof. unfold visit. now intros ->. Qed.

Lemma loop_agree q1 q2 hs : forall acc,
  (forall h, List.In h hs -> q1 !! stockCode h = q2 !! stockCode h) ->
  fold_left (visit q1) hs acc = fold_left (visit q2) hs acc.
Proof.
  induction hs as [|h hs IH]; intros acc Hagree; [reflexivity|].
  cbn [fold_left]. rewrite (visit_agree q1 q2) by (apply Hagree; now left).
  apply IH. intros h' Hin. apply Hagree. now right.
Qed.

(** X18.  The estimate reads the record of quotes at the codes of the
    holdings only, and whether it is empty: two records that are both
    empty or both not, and hold the same under the code of every holding,
    give the same estimate, whatever else they hold. *)
Theorem estimate_reads_holding_codes (detail : option FundDetail)
    (q1 q2 : gmap string StockQuote) (est : option FundEstimate) :
  (forall h, List.In h (holdingsOf detail) ->
             q1 !! stockCode h = q2 !! stockCode h) ->
  (size q1 = 0%nat <-> size q2 = 0%nat) ->
  estimate detail q1 est = estimate detail q2 est.
Proof.
  intros Hagree Hsize. unfold estimate.
  destruct detail as [d|]; [|reflexivity]. destruct est as [e|]; [|reflexivity].
  cbn [holdingsOf] in Hagree.
  replace (Nat.eqb (size q1) 0) with (Nat.eqb (size q2) 0).
  - now rewrite (loop_agree q1 q2 (holdings d) init Hagree).
  - destruct (Nat.eqb_spec (size q2) 0) as [H2|H2], (Nat.eqb_spec (size q1) 0) as [H1|H1];
      tauto.
Qed.

Lemma estimate_reads_holding_codes_witness :
  estimate (Some (detailOf twoHoldings)) twoQuotes (Some (estimateOf "2.5"))
  = estimate (Some (detailOf twoHoldings)) staleQuotes (Some (estimateOf "2.5")).
Proof.
  apply (estimate_reads_holding_codes (Some (detailOf twoHoldings))
           twoQuotes staleQuotes (Some (estimateOf "2.5"))).
  - intros h [<- | [<- | []]]; vm_compute; reflexivity.
  - split; vm_compute; discriminate.
Defined.
End EstimatorFrame.
